(** * fileconv/loaders.py: the loader prototype and its three formats

    A shallow embedding of [src/fileconv/loaders.py] (Python 2): the
    appendix pattern and its search, the extension to save under, the
    validity check of each format, the three [parse] methods with their
    diagnostics, [load] and the constructor.

    Python byte strings are lists of characters; Python's [None] is the
    [None] of an option; an exception raised by a call is the [Raise]
    outcome of that call; the output panel a loader writes to is threaded
    through [load] and [parse] as explicit state.  What the module calls
    outside itself (the file system, the decoders, the editor) is a
    parameter, the record [World]. *)

From Stdlib Require Import List Ascii String Bool Arith ZArith Lia DecimalString.
Import ListNotations.

(** ** Byte strings *)

Definition str := list ascii.

(** A literal of the source, as a byte string. *)
Definition lit (s : string) : str := list_ascii_of_string s.

Fixpoint str_eqb (a b : str) : bool :=
  match a, b with
  | [], [] => true
  | x :: a', y :: b' => Ascii.eqb x y && str_eqb a' b'
  | _, _ => false
  end.

(** Truth value of [None], [""] and a non-empty string. *)
Definition str_truthy (s : option str) : bool :=
  match s with
  | Some (_ :: _) => true
  | _ => false
  end.

Definition dot : ascii := "."%char.
Definition dash : ascii := "-"%char.
Definition newline : ascii := "010"%char.

Definition is_dot (c : ascii) : bool := Ascii.eqb c dot.

(** [s.startswith(prefix)] *)
Fixpoint startswith (s prefix : str) : bool :=
  match prefix with
  | [] => true
  | c :: prefix' =>
      match s with
      | x :: s' => Ascii.eqb x c && startswith s' prefix'
      | [] => false
      end
  end.

(** ** The formats registered in [get] *)

Inductive Format := JSONLoader | PlistLoader | YAMLLoader.

Definition name (cls : Format) : str :=
  match cls with
  | JSONLoader => lit "JSON"
  | PlistLoader => lit "Property List"
  | YAMLLoader => lit "YAML"
  end.

Definition ext (cls : Format) : str :=
  match cls with
  | JSONLoader => lit "json"
  | PlistLoader => lit "plist"
  | YAMLLoader => lit "yaml"
  end.

Definition scope (cls : Format) : option str :=
  match cls with
  | JSONLoader => Some (lit "source.json")
  | PlistLoader => None
  | YAMLLoader => Some (lit "source.yaml")
  end.

Definition DOCTYPE : str := lit "<!DOCTYPE plist".

(** ** Regular expressions: [re.search] under [(?i)]

    The constructs the appendix pattern is written with, and the
    backtracking search of the [re] module for them: alternatives are
    tried in the order of the engine (a greedy repetition first takes
    all it can, an optional part is first tried, then skipped) and the
    first way that reaches the end of the pattern is the match. *)

(** Lower-casing of the engine under [(?i)] for 8-bit patterns: the
    ASCII letters only. *)
Definition sre_lower (c : ascii) : ascii :=
  let n := nat_of_ascii c in
  if (65 <=? n) && (n <=? 90) then ascii_of_nat (n + 32) else c.

Definition ci_eqb (a b : ascii) : bool := Ascii.eqb (sre_lower a) (sre_lower b).

(** [$] without the MULTILINE flag: the end of the string, or just
    before a newline that ends the string. *)
Definition at_end (s : str) : bool :=
  match s with
  | [] => true
  | [c] => Ascii.eqb c newline
  | _ => false
  end.

Module re.

Inductive regex :=
| Eps                       (* the empty pattern *)
| Chr (c : ascii)           (* a literal character *)
| PlusNot (c : ascii)       (* [^c]+ *)
| Cat (r1 r2 : regex)       (* r1 r2 *)
| Opt (r : regex)           (* (?:r)? *)
| Group (r : regex)         (* (r), the group 1 *)
| Eol.                      (* $ *)

(** A match object: the text of group 1, or [None] when the group took
    no part in the match. *)
Definition match_object := option str.

(** [run r k s g] matches [r] at the front of [s], with [g] the group
    captured so far, and hands what is left of [s] to [k], which
    matches the rest of the pattern; when [k] fails the next
    alternative of [r] is tried. *)
Fixpoint run (r : regex) (k : str -> option str -> option match_object)
    (s : str) (g : option str) : option match_object :=
  match r with
  | Eps => k s g
  | Chr c =>
      match s with
      | x :: s' => if ci_eqb c x then k s' g else None
      | [] => None
      end
  | PlusNot c =>
      (fix more (s : str) : option match_object :=
         match s with
         | [] => None
         | x :: s' =>
             if ci_eqb c x then None
             else match more s' with
                  | Some m => Some m
                  | None => k s' g
                  end
         end) s
  | Cat r1 r2 => run r1 (fun s' g' => run r2 k s' g') s g
  | Opt r1 =>
      match run r1 k s g with
      | Some m => Some m
      | None => k s g
      end
  | Group r1 =>
      run r1 (fun s' _ => k s' (Some (firstn (List.length s - List.length s') s))) s g
  | Eol => if at_end s then k s g else None
  end.

(** [re.match]: the pattern at the front of [s]. *)
Definition match_ (r : regex) (s : str) : option match_object :=
  run r (fun _ g => Some g) s None.

(** [re.search]: the pattern at the first position, from the left, at
    which it matches. *)
Fixpoint search (r : regex) (s : str) : option match_object :=
  match match_ r s with
  | Some m => Some m
  | None =>
      match s with
      | [] => None
      | _ :: s' => search r s'
      end
  end.

(** A string of literal characters as a pattern. *)
Fixpoint literal (s : str) : regex :=
  match s with
  | [] => Eps
  | c :: s' => Cat (Chr c) (literal s')
  end.

End re.

(** ** The appendix of a file name *)

(** [cls.ext_regex], as [_pre_init_] sets it for each registered class
    (none of the three brings one of its own):
    [r'(?i)\.%s(?:-([^\.]+))?$' % cls.ext].  The extensions are plain
    letters, so the pattern is: a dot, the letters of [ext], optionally
    a dash and one or more characters other than a dot, captured, and
    the end. *)
Definition ext_regex (cls : Format) : re.regex :=
  re.Cat (re.Chr dot)
    (re.Cat (re.literal (ext cls))
       (re.Cat (re.Opt (re.Cat (re.Chr dash) (re.Group (re.PlusNot dot))))
          re.Eol)).

(** [LoaderProto.get_ext_appendix] *)
Definition get_ext_appendix (cls : Format) (file_name : option str) : option str :=
  if str_truthy file_name then
    match file_name with
    | Some f =>
        match re.search (ext_regex cls) f with
        | Some (Some g) => if str_truthy (Some g) then Some g else None
        | _ => None
        end
    | None => None
    end
  else None.

(** ** Exceptions and outcomes *)

(** The exception classes the source names or its built-ins raise; the
    string is [str(e)].  [OtherError] stands for any other class. *)
Inductive exn :=
| AttributeError (msg : str)
| TypeError (msg : str)
| ValueError (msg : str)
| IOError (msg : str)
| YAMLError (msg : str)
| ExpatError (msg : str) (code lineno offset : Z)
| NotImplementedError (msg : str)
| OtherError (msg : str).

Definition exn_str (e : exn) : str :=
  match e with
  | AttributeError m | TypeError m | ValueError m | IOError m
  | YAMLError m | ExpatError m _ _ _ | NotImplementedError m | OtherError m => m
  end.

Inductive outcome (A : Type) :=
| Return (a : A)
| Raise (e : exn).

Arguments Return {A} a.
Arguments Raise {A} e.

Definition obind {A B} (m : outcome A) (k : A -> outcome B) : outcome B :=
  match m with
  | Return a => k a
  | Raise e => Raise e
  end.

(** ** The [%] operator on strings

    [fmt % args] for the directives the source uses ([%s], and [%%]);
    the arguments are already converted with [str]. *)
Fixpoint py_format (fmt : str) (args : list str) : outcome str :=
  match fmt with
  | [] =>
      match args with
      | [] => Return []
      | _ :: _ =>
          Raise (TypeError (lit "not all arguments converted during string formatting"))
      end
  | c :: fmt1 =>
      if Ascii.eqb c "%"%char then
        match fmt1 with
        | d :: fmt2 =>
            if Ascii.eqb d "s"%char then
              match args with
              | a :: args' => obind (py_format fmt2 args') (fun r => Return (a ++ r))
              | [] => Raise (TypeError (lit "not enough arguments for format string"))
              end
            else if Ascii.eqb d "%"%char then
              obind (py_format fmt2 args) (fun r => Return (d :: r))
            else Raise (ValueError (lit "unsupported format character"))
        | [] => Raise (ValueError (lit "incomplete format"))
        end
      else obind (py_format fmt1 args) (fun r => Return (c :: r))
  end.

(** [str(n)] for an integer. *)
Definition str_of_int (z : Z) : str :=
  list_ascii_of_string (NilZero.string_of_int (Z.to_int z)).

(** ** [os.path] (posixpath) *)

(** [s.rfind(c)], counting from [i]; [acc] is the last index seen. *)
Fixpoint rfind_from (c : ascii) (s : str) (i acc : Z) : Z :=
  match s with
  | [] => acc
  | x :: s' => rfind_from c s' (i + 1)%Z (if Ascii.eqb x c then i else acc)
  end.

Definition rfind (c : ascii) (s : str) : Z := rfind_from c s 0%Z (-1)%Z.

(** [p[a:b]] for [0 <= a]. *)
Definition slice (p : str) (a b : Z) : str :=
  firstn (Z.to_nat (b - a)) (skipn (Z.to_nat a) p).

(** The functions of [os.path] the loaders call. *)
Module os_path.

(** [genericpath._splitext(p, '/', None, '.')]: the last dot after the
    last slash starts the extension, unless only dots precede it in the
    file name. *)
Definition splitext (p : str) : str * str :=
  let sepIndex := rfind "/"%char p in
  let dotIndex := rfind dot p in
  if (sepIndex <? dotIndex)%Z
     && existsb (fun x => negb (is_dot x)) (slice p (sepIndex + 1) dotIndex)
  then (firstn (Z.to_nat dotIndex) p, skipn (Z.to_nat dotIndex) p)
  else (p, []).

(** [s.rstrip('/')] *)
Fixpoint rstrip_slash (s : str) : str :=
  match s with
  | [] => []
  | c :: s' =>
      match rstrip_slash s' with
      | [] => if Ascii.eqb c "/"%char then [] else [c]
      | r => c :: r
      end
  end.

(** [posixpath.split(p)] for a string [p]. *)
Definition split (p : str) : str * str :=
  let i := (rfind "/"%char p + 1)%Z in
  let head := firstn (Z.to_nat i) p in
  let tail := skipn (Z.to_nat i) p in
  let head :=
    if str_truthy (Some head) && negb (forallb (Ascii.eqb "/"%char) head)
    then rstrip_slash head else head in
  (head, tail).

End os_path.

(** ** The host: views, files and decoders *)

Definition Window := nat.

(** The editor view.  [file_name] is [view.file_name()], which is the
    full path of the file or [None] for a buffer that is not on disk,
    never the empty string.

    Modelled from the spec: [base_scope] and [coorded_substr] are the
    helpers of [sublime_lib.view]; they give the view's declared syntax
    scope and the text between two (row, column) points. *)
Record View := {
  file_name : option str;
  file_name_ok : file_name <> Some [];
  window : option Window;
  base_scope : str;
  coorded_substr : nat * nat -> nat * nat -> str
}.

(** An open file: its name and its content. *)
Record File := { f_name : str; f_content : str }.

(** Decoded data. *)
#[warnings="-register-all"]
Inductive pyobj :=
| PyNone
| PyBool (b : bool)
| PyInt (z : Z)
| PyFloat (repr : str)
| PyStr (s : str)
| PyList (l : list pyobj)
| PyDict (d : list (pyobj * pyobj)).

(** The panel [self.output] refers to: the directory it was given and
    the lines written to it so far, oldest first.  (Its [file_regex]
    plays no part in what is written and is left out.)

    Modelled from the spec: [sublime_lib.view.OutputPanel], a sink that
    accepts line-oriented diagnostic text and can be cleared. *)
Record OutputPanel := { panel_path : str; panel_lines : list str }.

(** What the loaders call outside this module: the file system, the
    three decoders, expat's [ErrorString], and [sublime.active_window].

    Modelled from the spec: [path_to_dict_ext p] is
    [sublime_lib.path.path_to_dict(p).ext], the extension of the path;
    it is left open here.  So is [set_path], the method of
    [OutputPanel] that [__init__] calls on a panel that was handed in:
    what it does to the panel is not known here. *)
Record World := {
  open_ : str -> outcome File;
  json_load : File -> outcome pyobj;
  yaml_safe_load : File -> outcome pyobj;
  readPlist : str -> outcome pyobj;
  ErrorString : Z -> str;
  path_to_dict_ext : str -> str;
  active_window : Window;
  set_path : OutputPanel -> str -> OutputPanel
}.

(** The lines a file object yields when iterated: each keeps its
    newline. *)
Fixpoint readlines (s : str) : list str :=
  match s with
  | [] => []
  | c :: s' =>
      if Ascii.eqb c newline then [c] :: readlines s'
      else match readlines s' with
           | [] => [[c]]
           | l :: ls => (c :: l) :: ls
           end
  end.

(** ** Validity *)

Definition is_some {A} (o : option A) : bool :=
  match o with Some _ => true | None => false end.

(** Values of the validity check: [True], [False] or [None]. *)
Definition truthy (v : option bool) : bool :=
  match v with Some true => true | _ => false end.

(** [a or b] on such values. *)
Definition py_or (a b : option bool) : option bool := if truthy a then a else b.

(** [file_path or view and view.file_name()] *)
Definition file_path_or_view (file_path : option str) (view : option View) : option str :=
  if str_truthy file_path then file_path
  else match view with
       | Some v => file_name v
       | None => None
       end.

(** [cls.scope is not None and view and base_scope(view) == cls.scope];
    a view object is true, [None] is not. *)
Definition scope_check (cls : Format) (view : option View) : option bool :=
  match scope cls with
  | None => Some false
  | Some sc =>
      match view with
      | None => None
      | Some v => Some (str_eqb (base_scope v) sc)
      end
  end.

(** [LoaderProto.file_is_valid] *)
Definition LoaderProto_file_is_valid (w : World) (cls : Format)
    (view : option View) (file_path : option str) : outcome (option bool) :=
  let file_path := file_path_or_view file_path view in
  if negb (str_truthy file_path) then Return None
  else
    match file_path with
    | None => Return None
    | Some p =>
        Return
          (py_or (Some (is_some (get_ext_appendix cls (Some p))))
             (py_or (Some (str_eqb (path_to_dict_ext w p) (dot :: ext cls)))
                (scope_check cls view)))
    end.

(** The loop over [range(2)] on the view. *)
Fixpoint doctype_in_view (v : View) (rows : list nat) : bool :=
  match rows with
  | [] => false
  | i :: rows' =>
      let text := coorded_substr v (i, 0) (i, List.length DOCTYPE) in
      if str_eqb text DOCTYPE then true else doctype_in_view v rows'
  end.

(** The loop over the lines of the file, with its counter [i]; the
    [break] at [i == 2] leads to the [return False] after the loop. *)
Fixpoint doctype_in_file (lines : list str) (i : nat) : bool :=
  match lines with
  | [] => false
  | line :: lines' =>
      let i := i + 1 in
      if i =? 2 then false
      else if startswith line DOCTYPE then true
      else doctype_in_file lines' i
  end.

(** [PlistLoader.file_is_valid] *)
Definition PlistLoader_file_is_valid (w : World) (cls : Format)
    (view : option View) (file_path : option str) : outcome (option bool) :=
  let file_path := file_path_or_view file_path view in
  if negb (str_truthy file_path) then Return None
  else
    match file_path with
    | None => Return None
    | Some p =>
        if is_some (get_ext_appendix cls (Some p))
           || str_eqb (snd (os_path.splitext p)) (dot :: ext cls)
        then Return (Some true)
        else
          match view with
          | Some v =>
              if doctype_in_view v (seq 0 2) then Return (Some true)
              else Return (Some false)
          | None =>
              obind (open_ w p) (fun f =>
                if doctype_in_file (readlines (f_content f)) 0 then Return (Some true)
                else Return (Some false))
          end
    end.

(** [cls.file_is_valid]: the property-list class overrides it. *)
Definition file_is_valid (w : World) (cls : Format)
    (view : option View) (file_path : option str) : outcome (option bool) :=
  match cls with
  | PlistLoader => PlistLoader_file_is_valid w cls view file_path
  | _ => LoaderProto_file_is_valid w cls view file_path
  end.

(** [LoaderProto.get_new_file_ext] *)
Definition get_new_file_ext (w : World) (cls : Format)
    (view : option View) (file_path : option str) : outcome (option str * bool) :=
  let file_path := file_path_or_view file_path view in
  if negb (str_truthy file_path) then Return (None, false)
  else
    match file_path with
    | None => Return (None, false)
    | Some p =>
        let appendix := get_ext_appendix cls (Some p) in
        if str_truthy appendix then
          match appendix with
          | Some a => Return (Some (dot :: a), false)
          | None => Return (None, false) (* not true, not reached *)
          end
        else
          let ext_ := snd (os_path.splitext p) in
          if negb (str_eqb ext_ (dot :: ext cls)) then
            obind (file_is_valid w cls view (Some p)) (fun valid =>
              if truthy valid then Return (Some ext_, true)
              else Return (None, false))
          else Return (None, false)
    end.

(** ** The output panel and the loader instance *)

(** A new panel is made for a directory and cleared; a line written
    comes after the lines that are there. *)
Definition clear (o : OutputPanel) : OutputPanel :=
  {| panel_path := panel_path o; panel_lines := [] |}.

Definition panel_write_line (o : OutputPanel) (line : str) : OutputPanel :=
  {| panel_path := panel_path o; panel_lines := panel_lines o ++ [line] |}.

(** Computations that write to the panel and may raise. *)
Definition M (A : Type) : Type := OutputPanel -> outcome A * OutputPanel.

Definition mret {A} (a : A) : M A := fun o => (Return a, o).

Definition mraise {A} (e : exn) : M A := fun o => (Raise e, o).

Definition mbind {A B} (m : M A) (k : A -> M B) : M B :=
  fun o =>
    match m o with
    | (Return a, o') => k a o'
    | (Raise e, o') => (Raise e, o')
    end.

Definition lift {A} (m : outcome A) : M A := fun o => (m, o).

Definition write_line (line : str) : M unit :=
  fun o => (Return tt, panel_write_line o line).

(** [try: body / except ...: handler]; [handler e = None] when no
    [except] clause is for the class of [e], which then goes on up. *)
Definition try_except {A} (body : M A) (handler : exn -> option (M A)) : M A :=
  fun o =>
    match body o with
    | (Return a, o') => (Return a, o')
    | (Raise e, o') =>
        match handler e with
        | Some h => h o'
        | None => (Raise e, o')
        end
    end.

Notation "x <- c ;; k" := (mbind c (fun x => k))
  (at level 61, c at next level, right associativity).

Record Loader := {
  self_class : Format;
  self_window : Window;
  self_view : option View;
  self_file_path : str
}.

(** [LoaderProto.__init__]: the new instance and the panel it writes
    to. *)
Definition init (w : World) (cls : Format) (window_ : option Window)
    (view : option View) (file_path : option str) (output : option OutputPanel)
  : outcome (Loader * OutputPanel) :=
  (* self.window = window or view.window() or sublime.active_window() *)
  obind
    (match window_ with
     | Some wd => Return wd
     | None =>
         match view with
         | None => Raise (AttributeError (lit "'NoneType' object has no attribute 'window'"))
         | Some v =>
             Return (match window v with
                     | Some wd => wd
                     | None => active_window w
                     end)
         end
     end)
    (fun wd =>
  (* self.file_path = file_path or view.file_name() *)
  obind
    (if str_truthy file_path then Return file_path
     else match view with
          | None => Raise (AttributeError (lit "'NoneType' object has no attribute 'file_name'"))
          | Some v => Return (file_name v)
          end)
    (fun self_file_path_ =>
  (* path = os.path.split(self.file_path)[0]: on [None] the call of
     [p.rfind] in [split] fails *)
  match self_file_path_ with
  | None => Raise (AttributeError (lit "'NoneType' object has no attribute 'rfind'"))
  | Some p =>
      let path := fst (os_path.split p) in
      let panel :=
        match output with
        | Some o => set_path w o path
        | None => clear {| panel_path := path; panel_lines := [] |}
        end in
      Return ({| self_class := cls; self_window := wd;
                 self_view := view; self_file_path := p |}, panel)
  end)).

(** [LoaderProto.is_valid] *)
Definition is_valid (w : World) (self : Loader) : outcome (option bool) :=
  file_is_valid w (self_class self) (self_view self) (Some (self_file_path self)).

(** [LoaderProto.new_file_ext] *)
Definition new_file_ext (w : World) (self : Loader) : outcome (option str * bool) :=
  get_new_file_ext w (self_class self) (self_view self) (Some (self_file_path self)).

(** ** Parsing *)

Definition dquote : ascii := "034"%char.

(** The class attribute [debug_base]. *)
Definition debug_base (cls : Format) : str :=
  match cls with
  | JSONLoader =>
      lit "Error parsing " ++ name JSONLoader
        ++ lit " " ++ [dquote] ++ lit "%s" ++ [dquote] ++ lit ": %s"
  | PlistLoader =>
      lit "Error parsing " ++ name PlistLoader
        ++ lit " " ++ [dquote] ++ lit "%s" ++ [dquote] ++ lit ": %s, line %s, column %s"
  | YAMLLoader => lit "Error parsing YAML: %s"
  end.

(** The format string of the two [IOError] handlers. *)
Definition error_opening : str :=
  lit "Error opening " ++ [dquote] ++ lit "%s" ++ [dquote] ++ lit ": %s".

(** [string.split("\n")] *)
Fixpoint split_nl (s : str) : list str :=
  match s with
  | [] => [[]]
  | c :: s' =>
      if Ascii.eqb c newline then [] :: split_nl s'
      else match split_nl s' with
           | l :: ls => (c :: l) :: ls
           | [] => [[c]]
           end
  end.

(** Whitespace for [str.strip()]: tab, newline, vertical tab, form
    feed, carriage return, space. *)
Definition is_space (c : ascii) : bool :=
  let n := nat_of_ascii c in ((9 <=? n) && (n <=? 13)) || (n =? 32).

Fixpoint lstrip (s : str) : str :=
  match s with
  | [] => []
  | c :: s' => if is_space c then lstrip s' else s
  end.

Fixpoint rstrip (s : str) : str :=
  match s with
  | [] => []
  | c :: s' =>
      match rstrip s' with
      | [] => if is_space c then [] else [c]
      | r => c :: r
      end
  end.

Definition strip (s : str) : str := rstrip (lstrip s).

(** [sep.join(l)] *)
Fixpoint join (sep : str) (l : list str) : str :=
  match l with
  | [] => []
  | x :: l' =>
      match l' with
      | [] => x
      | _ :: _ => x ++ sep ++ join sep l'
      end
  end.

Definition _join_multiline (string : str) : str :=
  join (lit " ") (map strip (split_nl string)).

(** [JSONLoader.parse] *)
Definition JSONLoader_parse (w : World) (self : Loader) : M pyobj :=
  try_except
    (lift (obind (open_ w (self_file_path self)) (json_load w)))
    (fun e =>
       match e with
       | ValueError _ =>
           Some (line <- lift (py_format (debug_base JSONLoader)
                                [self_file_path self; exn_str e]) ;;
                 _ <- write_line line ;;
                 mret PyNone)
       | IOError _ =>
           Some (line <- lift (py_format error_opening
                                [self_file_path self; exn_str e]) ;;
                 _ <- write_line line ;;
                 mret PyNone)
       | _ => None
       end).

(** [PlistLoader.parse] *)
Definition PlistLoader_parse (w : World) (self : Loader) : M pyobj :=
  try_except
    (lift (readPlist w (self_file_path self)))
    (fun e =>
       match e with
       | ExpatError _ code lineno offset =>
           Some (line <- lift (py_format (debug_base PlistLoader)
                                [self_file_path self; ErrorString w code;
                                 str_of_int lineno; str_of_int offset]) ;;
                 _ <- write_line line ;;
                 mret PyNone)
       | _ =>
           (* except BaseException *)
           Some (line <- lift (py_format (debug_base PlistLoader)
                                [self_file_path self; exn_str e]) ;;
                 _ <- write_line line ;;
                 mret PyNone)
       end).

(** [YAMLLoader.parse] *)
Definition YAMLLoader_parse (w : World) (self : Loader) : M pyobj :=
  try_except
    (lift (obind (open_ w (self_file_path self)) (yaml_safe_load w)))
    (fun e =>
       match e with
       | YAMLError _ =>
           Some (line <- lift (py_format (debug_base YAMLLoader)
                                [_join_multiline (exn_str e)]) ;;
                 _ <- write_line line ;;
                 mret PyNone)
       | IOError _ =>
           Some (line <- lift (py_format error_opening
                                [self_file_path self; exn_str e]) ;;
                 _ <- write_line line ;;
                 mret PyNone)
       | _ => None
       end).

(** [self.parse]: each class brings its own. *)
Definition parse (w : World) (self : Loader) : M pyobj :=
  match self_class self with
  | JSONLoader => JSONLoader_parse w self
  | PlistLoader => PlistLoader_parse w self
  | YAMLLoader => YAMLLoader_parse w self
  end.

(** [LoaderProto.load] *)
Definition load (w : World) (self : Loader) : M pyobj :=
  valid <- lift (is_valid w self) ;;
  if negb (truthy valid) then
    msg <- lift (py_format (lit "Not a %s file.") [name (self_class self)]) ;;
    mraise (NotImplementedError msg)
  else
    line <- lift (py_format (lit "Parsing %s... (%s)")
                   [name (self_class self); self_file_path self]) ;;
    _ <- write_line line ;;
    parse w self.

(** ** The validity check in the words of the specification *)

(** The extension of the path as the class's check reads it. *)
Definition path_extension (w : World) (cls : Format) (p : str) : str :=
  match cls with
  | PlistLoader => snd (os_path.splitext p)
  | _ => path_to_dict_ext w p
  end.

Definition appendix_check (cls : Format) (p : str) : bool :=
  is_some (get_ext_appendix cls (Some p)).

Definition extension_check (w : World) (cls : Format) (p : str) : bool :=
  str_eqb (path_extension w cls p) (dot :: ext cls).

(** Content sniffing by scope: a buffer is present and its base scope
    is the scope of the format. *)
Definition scope_sniff (cls : Format) (view : option View) : bool :=
  match scope cls, view with
  | Some sc, Some v => str_eqb (base_scope v) sc
  | _, _ => false
  end.

(** The logical OR of the three checks, in their priority order. *)
Definition or_of_checks (w : World) (cls : Format) (view : option View) (p : str) : bool :=
  appendix_check cls p || extension_check w cls p || scope_sniff cls view.

(** ** The appendix pattern, unfolded

    What the search does on [ext_regex], written out part by part;
    [ext_search_is_re_search] below shows that it is the same search. *)

(** The letters of the extension: consumes [pat] from the front of
    [s], ignoring case, and returns what is left. *)
Fixpoint match_literal (pat s : str) : option str :=
  match pat with
  | [] => Some s
  | c :: pat' =>
      match s with
      | x :: s' => if ci_eqb c x then match_literal pat' s' else None
      | [] => None
      end
  end.

(** [([^\.]+)$]: the repetition takes as many non-dot characters as it
    can and gives them back one at a time until [$] matches; the result
    is the captured group. *)
Fixpoint match_group_end (s : str) : option str :=
  match s with
  | [] => None
  | c :: s' =>
      if is_dot c then None
      else match match_group_end s' with
           | Some g => Some (c :: g)
           | None => if at_end s' then Some [c] else None
           end
  end.

(** [(?:-([^\.]+))?$]: the optional part is tried first, then skipped. *)
Definition match_tail (s : str) : option (option str) :=
  match (match s with
         | c :: s' => if Ascii.eqb c dash then match_group_end s' else None
         | [] => None
         end) with
  | Some g => Some (Some g)
  | None => if at_end s then Some None else None
  end.

(** The whole pattern at the front of [s]. *)
Definition match_here (cls : Format) (s : str) : option (option str) :=
  match s with
  | c :: s1 =>
      if is_dot c then
        match match_literal (ext cls) s1 with
        | Some s2 => match_tail s2
        | None => None
        end
      else None
  | [] => None
  end.

(** The pattern at the first position at which it matches. *)
Fixpoint ext_search (cls : Format) (s : str) : option (option str) :=
  match match_here cls s with
  | Some m => Some m
  | None =>
      match s with
      | [] => None
      | _ :: s' => ext_search cls s'
      end
  end.

(** ** Vocabulary of the statements *)

(** [e] spells [pat] up to the case of ASCII letters. *)
Definition same_letters (e pat : str) : Prop :=
  Forall2 (fun x c => sre_lower c = sre_lower x) e pat.

(** [s] contains [u]. *)
Definition contains (s u : str) : Prop := exists a b, s = a ++ u ++ b.

(** The trace line of [load]. *)
Definition trace_line (self : Loader) : str :=
  lit "Parsing " ++ name (self_class self) ++ lit "... (" ++ self_file_path self ++ lit ")".

(** The error of [load] for a file that is not accepted. *)
Definition not_a_file (self : Loader) : exn :=
  NotImplementedError (lit "Not a " ++ name (self_class self) ++ lit " file.").

(** ** Sample hosts, for the examples *)

Definition no_such_file : exn := IOError (lit "[Errno 2] No such file or directory").

(** A disk without files, and a disk with one file. *)
Definition empty_disk : str -> outcome File := fun _ => Raise no_such_file.

Definition one_file (path content : str) : str -> outcome File :=
  fun p =>
    if str_eqb p path then Return {| f_name := path; f_content := content |}
    else Raise no_such_file.

(** A host from its disk, what the JSON and YAML decoders answer and
    what [plistlib] answers; the extension of [path_to_dict] is that of
    [os.path.splitext], and [set_path] gives the panel its new
    directory. *)
Definition sample_world (files : str -> outcome File)
    (decode : File -> outcome pyobj) (plist : str -> outcome pyobj) : World :=
  {| open_ := files;
     json_load := decode;
     yaml_safe_load := decode;
     readPlist := plist;
     ErrorString := fun _ => lit "mismatched tag";
     path_to_dict_ext := fun p => snd (os_path.splitext p);
     active_window := 0;
     set_path := fun o path => {| panel_path := path; panel_lines := panel_lines o |} |}.

Definition no_decoder : File -> outcome pyobj := fun _ => Return PyNone.

Definition no_plist : str -> outcome pyobj := fun _ => Return PyNone.

Definition plain_world : World := sample_world empty_disk no_decoder no_plist.

(** The text of a buffer given by its rows. *)
Definition text_substr (rows : list str) (a b : nat * nat) : str :=
  firstn (snd b - snd a) (skipn (snd a) (nth (fst a) rows [])).

(** A buffer that is not on disk, and one saved under the name
    [c :: rest]. *)
Definition unsaved_view (scope_ : str) (rows : list str) : View :=
  {| file_name := None;
     file_name_ok := ltac:(discriminate);
     window := Some 1;
     base_scope := scope_;
     coorded_substr := text_substr rows |}.

Definition saved_view (c : ascii) (rest : str) (scope_ : str) (rows : list str) : View :=
  {| file_name := Some (c :: rest);
     file_name_ok := ltac:(discriminate);
     window := Some 1;
     base_scope := scope_;
     coorded_substr := text_substr rows |}.

Definition empty_panel : OutputPanel := {| panel_path := []; panel_lines := [] |}.

(** A property list under another extension, with its marker on the
    first line and on the second. *)
Definition plist_on_disk : World :=
  sample_world
    (one_file (lit "Info.xml")
       (lit "<!DOCTYPE plist PUBLIC>" ++ [newline] ++ lit "<plist/>" ++ [newline]))
    no_decoder no_plist.

Definition doctype_on_second_line : World :=
  sample_world
    (one_file (lit "Info.xml")
       (lit "<?xml version=1.0?>" ++ [newline]
        ++ lit "<!DOCTYPE plist PUBLIC>" ++ [newline] ++ lit "<plist/>" ++ [newline]))
    no_decoder no_plist.

(** JSON with a trailing comma, and what the decoder says of it. *)
Definition settings_json : Loader :=
  {| self_class := JSONLoader; self_window := 1; self_view := None;
     self_file_path := lit "settings.json" |}.

Definition trailing_comma : World :=
  sample_world
    (one_file (lit "settings.json")
       (lit "{" ++ [dquote] ++ lit "a" ++ [dquote] ++ lit ":1,}"))
    (fun _ => Raise (ValueError (lit "Expecting property name: line 1 column 7 (char 7)")))
    no_plist.

(** [plistlib] on well-formed XML that is no property list, a string
    directly inside a [dict], and on a file that is not there. *)
Definition info_plist : Loader :=
  {| self_class := PlistLoader; self_window := 1; self_view := None;
     self_file_path := lit "Info.plist" |}.

Definition not_a_plist : World :=
  sample_world
    (one_file (lit "Info.plist") (lit "<plist><dict><string>x</string></dict></plist>"))
    no_decoder
    (fun _ => Raise (AttributeError (lit "append"))).

Definition plist_missing : World :=
  sample_world empty_disk no_decoder (fun _ => Raise no_such_file).

(** YAML indented with a tab, and the three lines the scanner says of
    it. *)
Definition conf_yaml : Loader :=
  {| self_class := YAMLLoader; self_window := 1; self_view := None;
     self_file_path := lit "conf.yaml" |}.

Definition tab_message : str :=
  lit "while scanning for the next token" ++ [newline]
  ++ lit "found character that cannot start any token" ++ [newline]
  ++ lit "  in " ++ [dquote] ++ lit "conf.yaml" ++ [dquote] ++ lit ", line 2, column 1".

Definition tab_indent : World :=
  sample_world
    (one_file (lit "conf.yaml") (lit "a:" ++ [newline; "009"%char] ++ lit "b: 1" ++ [newline]))
    (fun _ => Raise (YAMLError tab_message))
    no_plist.

(** A property-list loader on a file under another name. *)
Definition notes_txt : Loader :=
  {| self_class := PlistLoader; self_window := 1; self_view := None;
     self_file_path := lit "notes.txt" |}.

(** ** The registry [get]

    The loop at the end of the module goes over [dir()], the names of
    the module in sorted order, and enters every class below
    [LoaderProto] under its extension, after [_pre_init_] has given it
    its [ext_regex]. *)

(** The classes among the objects the names of the module are bound
    to. *)
Inductive pyclass :=
| class_object
| class_BaseException
| class_Exception
| class_ExpatError
| class_OutputPanel
| class_LoaderProto
| class_Loader (cls : Format).

Definition Format_eqb (a b : Format) : bool :=
  match a, b with
  | JSONLoader, JSONLoader | PlistLoader, PlistLoader | YAMLLoader, YAMLLoader => true
  | _, _ => false
  end.

(** [a is b] *)
Definition pyclass_is (a b : pyclass) : bool :=
  match a, b with
  | class_object, class_object
  | class_BaseException, class_BaseException
  | class_Exception, class_Exception
  | class_ExpatError, class_ExpatError
  | class_OutputPanel, class_OutputPanel
  | class_LoaderProto, class_LoaderProto => true
  | class_Loader f, class_Loader g => Format_eqb f g
  | _, _ => false
  end.

(** [t.__bases__]; [OutputPanel] comes from [sublime_lib] and is taken
    to be a plain class. *)
Definition bases (t : pyclass) : list pyclass :=
  match t with
  | class_object => []
  | class_BaseException => [class_object]
  | class_Exception => [class_BaseException]
  | class_ExpatError => [class_Exception]
  | class_OutputPanel => [class_object]
  | class_LoaderProto => [class_object]
  | class_Loader _ => [class_LoaderProto]
  end.

(** [t.__mro__]: the class and the classes above it. *)
Definition mro (t : pyclass) : list pyclass :=
  match t with
  | class_object => [class_object]
  | class_BaseException => [class_BaseException; class_object]
  | class_Exception => [class_Exception; class_BaseException; class_object]
  | class_ExpatError =>
      [class_ExpatError; class_Exception; class_BaseException; class_object]
  | class_OutputPanel => [class_OutputPanel; class_object]
  | class_LoaderProto => [class_LoaderProto; class_object]
  | class_Loader f => [class_Loader f; class_LoaderProto; class_object]
  end.

Definition issubclass (t u : pyclass) : bool := existsb (pyclass_is u) (mro t).

(** [t.ext]; [None] where the attribute is missing. *)
Definition class_ext (t : pyclass) : option str :=
  match t with
  | class_Loader f => Some (ext f)
  | class_LoaderProto => Some []
  | _ => None
  end.

(** What a name of the module is bound to: a class, or an object that
    has no [__bases__] (a module, a function, a string, a dict,
    [None]). *)
Inductive pyglobal :=
| a_class (t : pyclass)
| no_class.

(** [dir()] with [globals()], when the loop starts. *)
Definition module_globals : list (string * pyglobal) :=
  [ ("ErrorString", no_class);
    ("ExpatError", a_class class_ExpatError);
    ("JSONLoader", a_class (class_Loader JSONLoader));
    ("LoaderProto", a_class class_LoaderProto);
    ("OutputPanel", a_class class_OutputPanel);
    ("PlistLoader", a_class (class_Loader PlistLoader));
    ("YAMLLoader", a_class (class_Loader YAMLLoader));
    ("__builtins__", no_class);
    ("__doc__", no_class);
    ("__file__", no_class);
    ("__name__", no_class);
    ("__package__", no_class);
    ("_join_multiline", no_class);
    ("appendix_regex", no_class);
    ("base_scope", no_class);
    ("coorded_substr", no_class);
    ("get", no_class);
    ("json", no_class);
    ("os", no_class);
    ("path_to_dict", no_class);
    ("plistlib", no_class);
    ("re", no_class);
    ("sublime", no_class);
    ("yaml", no_class) ]%string.

(** A dict with string keys, in the order of insertion. *)
Fixpoint dict_get {V} (d : list (str * V)) (k : str) : option V :=
  match d with
  | [] => None
  | (k', v) :: d' => if str_eqb k' k then Some v else dict_get d' k
  end.

(** [d[k] = v] *)
Fixpoint dict_set {V} (d : list (str * V)) (k : str) (v : V) : list (str * V) :=
  match d with
  | [] => [(k, v)]
  | (k', v') :: d' => if str_eqb k' k then (k, v) :: d' else (k', v') :: dict_set d' k v
  end.

(** The state of the module while the loop runs: the [ext_regex] in
    the dict of each class, and [get]. *)
Record module_state := {
  own_ext_regex : pyclass -> option str;
  get : list (str * pyclass)
}.

(** [hasattr(cls, 'ext_regex')]: in the class or above it. *)
Definition hasattr_ext_regex (st : module_state) (t : pyclass) : bool :=
  existsb (fun u => is_some (own_ext_regex st u)) (mro t).

(** [cls.ext_regex]: the first one on the way up. *)
Definition getattr_ext_regex (st : module_state) (t : pyclass) : option str :=
  fold_right (fun u r => match own_ext_regex st u with Some x => Some x | None => r end)
    None (mro t).

(** The pattern of [_pre_init_], before [% cls.ext]. *)
Definition ext_regex_format : str := lit "(?i)\.%s(?:-([^\.]+))?$".

(** [LoaderProto._pre_init_] *)
Definition _pre_init_ (st : module_state) (t : pyclass) : outcome module_state :=
  if negb (hasattr_ext_regex st t) then
    match class_ext t with
    | None => Raise (AttributeError (lit "ext"))
    | Some e =>
        obind (py_format ext_regex_format [e]) (fun pattern =>
          Return {| own_ext_regex :=
                      fun u => if pyclass_is u t then Some pattern else own_ext_regex st u;
                    get := get st |})
    end
  else Return st.

(** The body of the loop for one name; an [AttributeError] is passed
    over, another error ends the import. *)
Definition register (st : module_state) (g : pyglobal) : outcome module_state :=
  match g with
  | no_class => Return st
  | a_class t =>
      match bases t with
      | [] => Return st
      | _ :: _ =>
          if issubclass t class_LoaderProto && negb (pyclass_is t class_LoaderProto) then
            match obind (_pre_init_ st t) (fun st' =>
                    match class_ext t with
                    | None => Raise (AttributeError (lit "ext"))
                    | Some e =>
                        Return {| own_ext_regex := own_ext_regex st';
                                  get := dict_set (get st') e t |}
                    end) with
            | Raise (AttributeError _) => Return st
            | r => r
            end
          else Return st
      end
  end.

Fixpoint register_all (st : module_state) (names : list (string * pyglobal))
  : outcome module_state :=
  match names with
  | [] => Return st
  | (_, g) :: names' => obind (register st g) (fun st' => register_all st' names')
  end.

(** The module after its import. *)
Definition imported : outcome module_state :=
  register_all {| own_ext_regex := fun _ => None; get := [] |} module_globals.

(** A JSON file that decodes. *)
Definition settings_ok : World :=
  sample_world (one_file (lit "settings.json") (lit "[1]"))
    (fun _ => Return (PyList [PyInt 1])) no_plist.

(** [plistlib] on XML that is not well formed. *)
Definition mismatched_tag : World :=
  sample_world
    (one_file (lit "Info.plist") (lit "<plist><dict></plist>"))
    no_decoder
    (fun _ => Raise (ExpatError (lit "mismatched tag: line 3, column 12") 7 3 12)).

(** ** Vocabulary for the diagnostics *)

(** [u in s], decided. *)
Fixpoint has_substring (s u : str) : bool :=
  startswith s u
  || match s with
     | [] => false
     | _ :: s' => has_substring s' u
     end.



(** An empty JSON document, and what the decoder says of it: a message
    without line and column. *)
Definition empty_json : Loader :=
  {| self_class := JSONLoader; self_window := 1; self_view := None;
     self_file_path := lit "empty.json" |}.

Definition empty_document : World :=
  sample_world (one_file (lit "empty.json") [])
    (fun _ => Raise (ValueError (lit "No JSON object could be decoded")))
    no_plist.

(** A JSON document nested deeper than the interpreter's stack: the
    decoder raises a [RuntimeError], a class [parse] has no handler
    for. *)
Definition nested_too_deep : World :=
  sample_world (one_file (lit "empty.json") (lit "[[[[[[[[[["))
    (fun _ => Raise (OtherError (lit "maximum recursion depth exceeded")))
    no_plist.



(** * The code on some inputs *)

Example appendix_local :
  get_ext_appendix JSONLoader (Some (lit "config.JSON-local")) = Some (lit "local").
Proof. reflexivity. Qed.

Example appendix_bare_extension :
  get_ext_appendix JSONLoader (Some (lit "config.json")) = None.
Proof. reflexivity. Qed.

Example appendix_not_last :
  get_ext_appendix YAMLLoader (Some (lit "a.yaml-old.txt")) = None.
Proof. reflexivity. Qed.

Example appendix_keeps_final_newline :
  get_ext_appendix YAMLLoader (Some (lit "a.yaml-old" ++ [newline]))
  = Some (lit "old" ++ [newline]).
Proof. reflexivity. Qed.

Example splitext_a_txt : os_path.splitext (lit "dir.d/a.b.txt") = (lit "dir.d/a.b", lit ".txt").
Proof. reflexivity. Qed.

Example splitext_hidden : os_path.splitext (lit "dir.d/..bashrc") = (lit "dir.d/..bashrc", []).
Proof. reflexivity. Qed.

Example split_dir : os_path.split (lit "/a/b//c.json") = (lit "/a/b", lit "c.json").
Proof. reflexivity. Qed.

Example format_two_places :
  py_format (lit "Error %s: %s, 100%%") [lit "a"; lit "b"] = Return (lit "Error a: b, 100%").
Proof. reflexivity. Qed.

Example join_multiline_three_lines :
  _join_multiline (lit "while scanning" ++ [newline] ++ lit "  in f.yaml, line 2 " ++ [newline])
  = lit "while scanning in f.yaml, line 2 ".
Proof. reflexivity. Qed.

(** The extension is compared with its case: [.YAML] is neither an
    appendix nor the extension, and without a buffer nothing is left to
    decide by. *)
Example upper_case_extension :
  file_is_valid plain_world YAMLLoader None (Some (lit "notes.YAML")) = Return None
  /\ file_is_valid plain_world YAMLLoader
       (Some (saved_view "n" (lit "otes.YAML") (lit "source.yaml") []))
       (Some (lit "notes.YAML")) = Return (Some true).
Proof. split; reflexivity. Qed.

Example load_accepts_and_reports :
  load trailing_comma settings_json empty_panel
  = (Return PyNone,
     {| panel_path := [];
        panel_lines :=
          [lit "Parsing JSON... (settings.json)";
           lit "Error parsing JSON " ++ [dquote] ++ lit "settings.json" ++ [dquote]
           ++ lit ": Expecting property name: line 1 column 7 (char 7)"] |}).
Proof. reflexivity. Qed.

Example load_rejects :
  load plain_world
    {| self_class := JSONLoader; self_window := 1; self_view := None;
       self_file_path := lit "notes.txt" |} empty_panel
  = (Raise (NotImplementedError (lit "Not a JSON file.")), empty_panel).
Proof. reflexivity. Qed.

Example tab_indent_reported :
  parse tab_indent conf_yaml empty_panel
  = (Return PyNone,
     {| panel_path := [];
        panel_lines :=
          [lit "Error parsing YAML: while scanning for the next token found character that cannot start any token in "
           ++ [dquote] ++ lit "conf.yaml" ++ [dquote] ++ lit ", line 2, column 1"] |}).
Proof. reflexivity. Qed.

(** * Properties *)

(** ** Strings *)

Lemma str_eqb_eq (a b : str) : str_eqb a b = true <-> a = b.
Proof.
  revert b; induction a as [|x a IH]; intros [|y b]; simpl; split;
    try discriminate; try reflexivity; intro H.
  - apply andb_true_iff in H as [Hx Hab].
    apply Ascii.eqb_eq in Hx. apply IH in Hab. congruence.
  - injection H as -> ->. rewrite Ascii.eqb_refl. simpl. now apply IH.
Qed.

Lemma str_eqb_refl (a : str) : str_eqb a a = true.
Proof. now apply str_eqb_eq. Qed.

Lemma str_eqb_neq (a b : str) : str_eqb a b = false <-> a <> b.
Proof.
  split.
  - intros H E. apply str_eqb_eq in E. congruence.
  - intro H. destruct (str_eqb a b) eqn:E; [|reflexivity].
    apply str_eqb_eq in E. contradiction.
Qed.

Lemma is_dot_true (c : ascii) : is_dot c = true <-> c = dot.
Proof. apply Ascii.eqb_eq. Qed.

Lemma is_dot_false (c : ascii) : is_dot c = false <-> c <> dot.
Proof. apply Ascii.eqb_neq. Qed.

Lemma str_truthy_cons (s : str) : str_truthy (Some s) = true <-> s <> [].
Proof. destruct s; simpl; split; congruence. Qed.

(** ** The appendix pattern *)

Lemma match_literal_sound (pat s r : str) :
  match_literal pat s = Some r -> exists e, s = e ++ r /\ same_letters e pat.
Proof.
  revert s; induction pat as [|c pat IH]; intros s H; simpl in H.
  - injection H as ->. exists []. split; [reflexivity | constructor].
  - destruct s as [|x s]; [discriminate|].
    destruct (ci_eqb c x) eqn:E; [|discriminate].
    apply IH in H as (e & -> & He).
    exists (x :: e). split; [reflexivity|].
    constructor; [now apply Ascii.eqb_eq in E | exact He].
Qed.

Lemma match_literal_complete (pat e r : str) :
  same_letters e pat -> match_literal pat (e ++ r) = Some r.
Proof.
  intro H; induction H as [|x c e pat Hxc _ IH]; simpl; [reflexivity|].
  unfold ci_eqb. rewrite Hxc, Ascii.eqb_refl. exact IH.
Qed.

Lemma ext_letters_not_dot (cls : Format) (c : ascii) :
  In c (ext cls) -> sre_lower c <> sre_lower dot.
Proof.
  destruct cls; simpl; intros H;
    repeat (destruct H as [<-|H]; [vm_compute; discriminate|]); contradiction.
Qed.

Lemma same_letters_no_dot (cls : Format) (e : str) :
  same_letters e (ext cls) -> ~ In dot e.
Proof.
  unfold same_letters. generalize (ext_letters_not_dot cls).
  generalize (ext cls) as pat. intros pat Hpat H.
  induction H as [|x c e pat' Hxc _ IH]; simpl; [tauto|].
  intros [->|Hin].
  - apply (Hpat c); [now left | exact Hxc].
  - apply IH; [|exact Hin]. intros c' Hc'. apply Hpat. now right.
Qed.

Lemma match_group_end_whole (s g : str) :
  match_group_end s = Some g -> g = s /\ s <> [] /\ ~ In dot s.
Proof.
  revert g; induction s as [|c s IH]; intros g H; simpl in H; [discriminate|].
  destruct (is_dot c) eqn:Hc; [discriminate|]. apply is_dot_false in Hc.
  destruct (match_group_end s) as [g'|] eqn:Hs.
  - injection H as <-. destruct (IH g' eq_refl) as (-> & _ & Hnd).
    repeat split; [discriminate|]. simpl. intros [E|E]; [congruence | tauto].
  - destruct s as [|d s']; simpl in H.
    + injection H as <-. repeat split; [discriminate|]. simpl. intros [E|[]]. congruence.
    + destruct s' as [|d' s'']; [|discriminate].
      destruct (Ascii.eqb d newline) eqn:Hd; [|discriminate].
      apply Ascii.eqb_eq in Hd. subst d. simpl in Hs. discriminate.
Qed.

Lemma match_group_end_complete (s : str) :
  s <> [] -> ~ In dot s -> match_group_end s = Some s.
Proof.
  induction s as [|c s IH]; intros Hne Hnd; [congruence|]. simpl.
  assert (Hc : is_dot c = false).
  { apply is_dot_false. intros ->. apply Hnd. now left. }
  rewrite Hc. destruct s as [|d s'].
  - reflexivity.
  - rewrite IH; [reflexivity | discriminate | intro H; apply Hnd; now right].
Qed.

Lemma at_end_no_dot (s : str) : at_end s = true -> ~ In dot s.
Proof.
  destruct s as [|c [|d s]]; simpl; try discriminate; [tauto|].
  intros H [E|[]]. subst c. vm_compute in H. discriminate.
Qed.

Lemma match_tail_group (t g : str) :
  match_tail t = Some (Some g) <-> t = dash :: g /\ g <> [] /\ ~ In dot g.
Proof.
  unfold match_tail. split.
  - destruct t as [|c t'].
    + simpl. discriminate.
    + destruct (Ascii.eqb c dash) eqn:Hc.
      * apply Ascii.eqb_eq in Hc. subst c.
        destruct (match_group_end t') as [g'|] eqn:Hg.
        -- intro H. injection H as <-.
           apply match_group_end_whole in Hg as (-> & ? & ?). auto.
        -- destruct (at_end (dash :: t')); discriminate.
      * destruct (at_end (c :: t')); discriminate.
  - intros (-> & Hne & Hnd). rewrite Ascii.eqb_refl.
    now rewrite match_group_end_complete.
Qed.

Lemma match_tail_no_dot (t : str) (m : option str) :
  match_tail t = Some m -> ~ In dot t.
Proof.
  destruct m as [g|]; intro H.
  - apply match_tail_group in H as (-> & _ & Hnd). simpl.
    intros [E|E]; [discriminate E | tauto].
  - unfold match_tail in H.
    destruct (match t with [] => None | c :: s' => _ end); [discriminate|].
    destruct (at_end t) eqn:E; [|discriminate]. now apply at_end_no_dot.
Qed.

Section Search.

Variable cls : Format.

Lemma match_here_sound (s : str) (m : option str) :
  match_here cls s = Some m ->
  exists e t, s = dot :: e ++ t /\ same_letters e (ext cls) /\ match_tail t = Some m.
Proof.
  unfold match_here. destruct s as [|c s1]; [discriminate|].
  destruct (is_dot c) eqn:Hc; [|discriminate]. apply is_dot_true in Hc. subst c.
  destruct (match_literal (ext cls) s1) as [s2|] eqn:Hl; [|discriminate].
  apply match_literal_sound in Hl as (e & -> & He). intro H.
  now exists e, s2.
Qed.

Lemma match_here_complete (e t : str) :
  same_letters e (ext cls) -> match_here cls (dot :: e ++ t) = match_tail t.
Proof.
  intro He. unfold match_here.
  replace (is_dot dot) with true by reflexivity.
  now rewrite match_literal_complete.
Qed.

(** A match starts at the last dot of the string. *)
Lemma match_here_single_dot (c : ascii) (s : str) (m : option str) :
  match_here cls (c :: s) = Some m -> ~ In dot s.
Proof.
  intro H. apply match_here_sound in H as (e & t & E & He & Ht).
  injection E as -> ->. intro Hin. apply in_app_or in Hin as [Hin|Hin].
  - exact (same_letters_no_dot _ _ He Hin).
  - exact (match_tail_no_dot _ _ Ht Hin).
Qed.

Lemma ext_search_cons (c : ascii) (s : str) :
  ext_search cls (c :: s)
  = match match_here cls (c :: s) with
    | Some m => Some m
    | None => ext_search cls s
    end.
Proof. reflexivity. Qed.

Lemma ext_search_sound (s : str) (m : option str) :
  ext_search cls s = Some m -> exists p s', s = p ++ s' /\ match_here cls s' = Some m.
Proof.
  induction s as [|c s IH].
  - discriminate.
  - rewrite ext_search_cons.
    destruct (match_here cls (c :: s)) as [m'|] eqn:Hh.
    + intro H. injection H as <-. now exists [], (c :: s).
    + intro H. apply IH in H as (p & s' & -> & H). now exists (c :: p), s'.
Qed.

Lemma ext_search_at_last_dot (p s : str) (m : option str) :
  match_here cls (dot :: s) = Some m -> ext_search cls (p ++ dot :: s) = Some m.
Proof.
  intro H. induction p as [|c p IH].
  - rewrite app_nil_l, ext_search_cons. now rewrite H.
  - rewrite <- app_comm_cons, ext_search_cons.
    destruct (match_here cls (c :: p ++ dot :: s)) as [m'|] eqn:Hh.
    + exfalso. apply (match_here_single_dot _ _ _ Hh).
      apply in_or_app. right. now left.
    + exact IH.
Qed.

End Search.

(** ** The search of [re] on the appendix pattern *)

Lemma ci_eqb_dot (x : ascii) : ci_eqb dot x = is_dot x.
Proof. destruct x as [[] [] [] [] [] [] [] []]; reflexivity. Qed.

Lemma ci_eqb_dash (x : ascii) : ci_eqb dash x = Ascii.eqb x dash.
Proof. destruct x as [[] [] [] [] [] [] [] []]; reflexivity. Qed.

Lemma run_PlusNot_cons (c x : ascii) (k : str -> option str -> option re.match_object)
    (s : str) (g : option str) :
  re.run (re.PlusNot c) k (x :: s) g
  = if ci_eqb c x then None
    else match re.run (re.PlusNot c) k s g with
         | Some m => Some m
         | None => k s g
         end.
Proof. reflexivity. Qed.

Lemma run_literal (pat : str) (k : str -> option str -> option re.match_object)
    (s : str) (g : option str) :
  re.run (re.literal pat) k s g
  = match match_literal pat s with
    | Some s' => k s' g
    | None => None
    end.
Proof.
  revert s; induction pat as [|c pat IH]; intros s; [reflexivity|].
  destruct s as [|x s]; [reflexivity|].
  cbn [re.literal re.run match_literal].
  destruct (ci_eqb c x); [apply IH | reflexivity].
Qed.

Lemma firstn_app_length (a b : str) :
  firstn (List.length (a ++ b) - List.length b) (a ++ b) = a.
Proof.
  rewrite length_app.
  replace (List.length a + List.length b - List.length b) with (List.length a) by lia.
  rewrite firstn_app, firstn_all, Nat.sub_diag. simpl. apply app_nil_r.
Qed.

(** The captured repetition before [$]: the group that the search
    records is the one [match_group_end] returns. *)
Lemma run_group_end (s0 pre s : str) (g : option str) :
  s0 = pre ++ s ->
  re.run (re.PlusNot dot)
    (fun s' _ =>
       re.run re.Eol (fun _ g' => Some g') s'
         (Some (firstn (List.length s0 - List.length s') s0)))
    s g
  = match match_group_end s with
    | Some t => Some (Some (pre ++ t))
    | None => None
    end.
Proof.
  revert pre; induction s as [|x s IH]; intros pre Hs0; [reflexivity|].
  rewrite run_PlusNot_cons, ci_eqb_dot. cbn [match_group_end].
  destruct (is_dot x); [reflexivity|].
  rewrite (IH (pre ++ [x])) by (now rewrite <- app_assoc).
  destruct (match_group_end s) as [t|].
  - now rewrite <- app_assoc.
  - cbn [re.run]. destruct (at_end s); [|reflexivity].
    subst s0. replace (pre ++ x :: s) with ((pre ++ [x]) ++ s) by now rewrite <- app_assoc.
    now rewrite firstn_app_length.
Qed.

Lemma run_tail (s : str) :
  re.run (re.Cat (re.Opt (re.Cat (re.Chr dash) (re.Group (re.PlusNot dot)))) re.Eol)
    (fun _ g => Some g) s None
  = match_tail s.
Proof.
  unfold match_tail. destruct s as [|x s]; [reflexivity|].
  change (match (if ci_eqb dash x
                 then re.run (re.PlusNot dot)
                        (fun s' _ =>
                           re.run re.Eol (fun _ g' => Some g') s'
                             (Some (firstn (List.length s - List.length s') s)))
                        s None
                 else None) with
          | Some m => Some m
          | None => if at_end (x :: s) then Some None else None
          end
          = match (if Ascii.eqb x dash then match_group_end s else None) with
            | Some g => Some (Some g)
            | None => if at_end (x :: s) then Some None else None
            end).
  rewrite ci_eqb_dash. destruct (Ascii.eqb x dash); [|reflexivity].
  rewrite (run_group_end s [] s None eq_refl).
  destruct (match_group_end s); reflexivity.
Qed.

Lemma match_is_match_here (cls : Format) (s : str) :
  re.match_ (ext_regex cls) s = match_here cls s.
Proof.
  unfold match_here. destruct s as [|x s]; [reflexivity|].
  change (re.match_ (ext_regex cls) (x :: s))
    with (if ci_eqb dot x
          then re.run (re.literal (ext cls))
                 (fun s' g' =>
                    re.run (re.Cat (re.Opt (re.Cat (re.Chr dash) (re.Group (re.PlusNot dot))))
                              re.Eol) (fun _ g => Some g) s' g')
                 s None
          else None).
  rewrite ci_eqb_dot. destruct (is_dot x); [|reflexivity].
  rewrite run_literal.
  destruct (match_literal (ext cls) s) as [s2|]; [|reflexivity].
  apply run_tail.
Qed.

(** [re.search] on [ext_regex] is the unfolded search. *)
Lemma ext_search_is_re_search (cls : Format) (s : str) :
  re.search (ext_regex cls) s = ext_search cls s.
Proof.
  induction s as [|x s IH]; cbn [re.search ext_search];
    rewrite match_is_match_here; destruct (match_here cls _); auto.
Qed.

Lemma get_ext_appendix_search (cls : Format) (f : option str) :
  get_ext_appendix cls f
  = if str_truthy f then
      match f with
      | Some f0 =>
          match ext_search cls f0 with
          | Some (Some g) => if str_truthy (Some g) then Some g else None
          | _ => None
          end
      | None => None
      end
    else None.
Proof.
  unfold get_ext_appendix. destruct f as [f0|]; [|reflexivity].
  now rewrite ext_search_is_re_search.
Qed.

(** C4. A file name made of any prefix, a dot, the canonical extension
    in any letter case, a dash and a non-empty appendix without dots
    yields exactly that appendix; every name that yields an appendix has
    this shape; a name that ends in the bare extension, and a missing
    name, yield [None]. *)
Theorem get_ext_appendix_spec (cls : Format) :
  (forall p e a : str,
      same_letters e (ext cls) -> a <> [] -> ~ In dot a ->
      get_ext_appendix cls (Some (p ++ dot :: e ++ dash :: a)) = Some a)
  /\ (forall (f : option str) (a : str),
      get_ext_appendix cls f = Some a ->
      exists p e, f = Some (p ++ dot :: e ++ dash :: a)
                  /\ same_letters e (ext cls) /\ a <> [] /\ ~ In dot a)
  /\ (forall p e : str,
      same_letters e (ext cls) -> get_ext_appendix cls (Some (p ++ dot :: e)) = None)
  /\ get_ext_appendix cls None = None.
Proof.
  assert (Hsound : forall (f : option str) (a : str),
      get_ext_appendix cls f = Some a ->
      exists p e, f = Some (p ++ dot :: e ++ dash :: a)
                  /\ same_letters e (ext cls) /\ a <> [] /\ ~ In dot a).
  { intros f a H. rewrite get_ext_appendix_search in H.
    destruct (str_truthy f); [|discriminate].
    destruct f as [f|]; [|discriminate].
    destruct (ext_search cls f) as [[g|]|] eqn:Hs; try discriminate.
    destruct (str_truthy (Some g)); [|discriminate]. injection H as ->.
    apply ext_search_sound in Hs as (p & s' & -> & Hh).
    apply match_here_sound in Hh as (e & t & -> & He & Ht).
    apply match_tail_group in Ht as (-> & Hne & Hnd).
    now exists p, e. }
  split; [|split; [|split]].
  - intros p e a He Hne Hnd. rewrite get_ext_appendix_search.
    assert (Hm : match_here cls (dot :: e ++ dash :: a) = Some (Some a)).
    { rewrite match_here_complete by exact He.
      apply match_tail_group. auto. }
    rewrite (ext_search_at_last_dot _ p _ _ Hm).
    replace (str_truthy (Some (p ++ dot :: e ++ dash :: a))) with true
      by (now destruct p).
    destruct a; [congruence | reflexivity].
  - exact Hsound.
  - intros p e He.
    destruct (get_ext_appendix cls (Some (p ++ dot :: e))) as [a|] eqn:H; [|reflexivity].
    exfalso. rewrite get_ext_appendix_search in H.
    assert (Hm : match_here cls (dot :: e ++ []) = Some None).
    { rewrite match_here_complete by exact He. reflexivity. }
    rewrite app_nil_r in Hm.
    rewrite (ext_search_at_last_dot _ p _ _ Hm) in H.
    destruct (str_truthy (Some (p ++ dot :: e))); discriminate.
  - reflexivity.
Qed.

Lemma get_ext_appendix_spec_witness :
  get_ext_appendix JSONLoader (Some (lit "conf/settings.JsOn-local draft"))
  = Some (lit "local draft").
Proof.
  apply (proj1 (get_ext_appendix_spec JSONLoader)
           (lit "conf/settings") (lit "JsOn") (lit "local draft")).
  - repeat constructor.
  - discriminate.
  - simpl. intros H.
    repeat (destruct H as [H|H]; [discriminate H|]). exact H.
Defined.

(** ** Validity *)

Lemma file_path_or_view_given (p : str) (view : option View) :
  p <> [] -> file_path_or_view (Some p) view = Some p.
Proof. destruct p; [congruence | reflexivity]. Qed.

Lemma LoaderProto_file_is_valid_path (w : World) (cls : Format)
    (view : option View) (fp : option str) (p : str) :
  cls <> PlistLoader ->
  file_path_or_view fp view = Some p -> p <> [] ->
  LoaderProto_file_is_valid w cls view fp
  = Return (py_or (Some (appendix_check cls p))
              (py_or (Some (extension_check w cls p)) (scope_check cls view))).
Proof.
  intros Hcls Hp Hne. unfold LoaderProto_file_is_valid. rewrite Hp.
  destruct p; [congruence|]. simpl.
  destruct cls; [reflexivity | contradiction | reflexivity].
Qed.

Lemma PlistLoader_file_is_valid_path (w : World)
    (view : option View) (fp : option str) (p : str) :
  file_path_or_view fp view = Some p -> p <> [] ->
  PlistLoader_file_is_valid w PlistLoader view fp
  = if appendix_check PlistLoader p || extension_check w PlistLoader p
    then Return (Some true)
    else match view with
         | Some v => Return (Some (doctype_in_view v (seq 0 2)))
         | None =>
             obind (open_ w p) (fun f =>
               Return (Some (doctype_in_file (readlines (f_content f)) 0)))
         end.
Proof.
  intros Hp Hne. unfold PlistLoader_file_is_valid. rewrite Hp.
  destruct p; [congruence|]. cbn [str_truthy negb].
  unfold appendix_check, extension_check, path_extension.
  destruct (_ || _); [reflexivity|].
  destruct view as [v|].
  - now destruct (doctype_in_view v (seq 0 2)).
  - destruct (open_ w (a :: p)) as [f|e]; [|reflexivity]. simpl.
    now destruct (doctype_in_file _ 0).
Qed.

Lemma file_is_valid_no_path (w : World) (cls : Format)
    (view : option View) (fp : option str) :
  str_truthy (file_path_or_view fp view) = false ->
  file_is_valid w cls view fp = Return None.
Proof.
  intro H. destruct cls; simpl;
    unfold LoaderProto_file_is_valid, PlistLoader_file_is_valid; now rewrite H.
Qed.

(** C2, as the code has it.  For a non-empty file path the value
    returned is true exactly when one of the three checks holds, taken
    in their order: an appendix or a matching extension gives [True]
    whatever the buffer and the disk hold; otherwise JSON and YAML give
    the comparison of the buffer's scope ([None] without a buffer) and
    the property list goes on to its own sniffing. *)
Theorem file_is_valid_or_of_checks (w : World) (cls : Format)
    (view : option View) (p : str) :
  p <> [] ->
  (appendix_check cls p || extension_check w cls p = true ->
   file_is_valid w cls view (Some p) = Return (Some true))
  /\ (cls <> PlistLoader ->
      exists v, file_is_valid w cls view (Some p) = Return v
                /\ truthy v = or_of_checks w cls view p
                /\ (v = None <->
                    view = None /\ appendix_check cls p || extension_check w cls p = false))
  /\ (appendix_check cls p = false -> extension_check w cls p = true ->
      forall (w' : World) (view' : option View),
        path_extension w' cls p = path_extension w cls p ->
        file_is_valid w' cls view' (Some p) = Return (Some true)).
Proof.
  intro Hne.
  pose proof (file_path_or_view_given p view Hne) as Hp.
  assert (Hfirst : forall (w0 : World) (view0 : option View),
             appendix_check cls p || extension_check w0 cls p = true ->
             file_is_valid w0 cls view0 (Some p) = Return (Some true)).
  { intros w0 view0 H.
    pose proof (file_path_or_view_given p view0 Hne) as Hp0.
    destruct cls; simpl.
    - rewrite (LoaderProto_file_is_valid_path w0 JSONLoader view0 _ p ltac:(discriminate) Hp0 Hne).
      destruct (appendix_check JSONLoader p); [reflexivity|].
      simpl in H. now rewrite H.
    - rewrite (PlistLoader_file_is_valid_path w0 view0 _ p Hp0 Hne). now rewrite H.
    - rewrite (LoaderProto_file_is_valid_path w0 YAMLLoader view0 _ p ltac:(discriminate) Hp0 Hne).
      destruct (appendix_check YAMLLoader p); [reflexivity|].
      simpl in H. now rewrite H. }
  split; [apply Hfirst|]. split.
  - intro Hcls.
    assert (E : file_is_valid w cls view (Some p)
                = Return (py_or (Some (appendix_check cls p))
                            (py_or (Some (extension_check w cls p)) (scope_check cls view)))).
    { destruct cls; [|contradiction|];
        exact (LoaderProto_file_is_valid_path w _ view _ p Hcls Hp Hne). }
    eexists. split; [exact E|].
    unfold or_of_checks, scope_check, scope_sniff.
    destruct (appendix_check cls p), (extension_check w cls p); simpl;
      try (split; [reflexivity | split; [discriminate | intros [_ H]; discriminate H]]).
    destruct cls; try contradiction; simpl; destruct view as [v|]; simpl;
      (split; [try reflexivity; now destruct (str_eqb _ _) |]);
      (split; [try discriminate; auto | intros [H _]; try discriminate H; reflexivity]).
  - intros HA HB w' view' Hext. apply Hfirst.
    unfold extension_check in *. rewrite Hext, HB. apply orb_true_r.
Qed.

Lemma file_is_valid_or_of_checks_witness :
  file_is_valid plain_world YAMLLoader None (Some (lit "notes.yaml")) = Return (Some true).
Proof.
  refine (proj1 (file_is_valid_or_of_checks plain_world YAMLLoader None (lit "notes.yaml") _) _).
  - discriminate.
  - reflexivity.
Defined.

(** C2 as stated fails for the empty path, which is not [None]: none of
    the three checks holds of it, yet the check answers for the file
    name of the buffer.  And on a path that has neither appendix nor
    extension, JSON without a buffer answers [None], not [False]. *)
Lemma file_is_valid_empty_path_counterexample :
  or_of_checks plain_world JSONLoader
    (Some (saved_view "x" (lit ".json") (lit "text.plain") [])) [] = false
  /\ file_is_valid plain_world JSONLoader
       (Some (saved_view "x" (lit ".json") (lit "text.plain") [])) (Some [])
     = Return (Some true)
  /\ file_is_valid plain_world JSONLoader None (Some (lit "a.txt")) = Return None.
Proof. repeat split. Qed.

Lemma doctype_in_file_first_line (lines : list str) :
  doctype_in_file lines 0
  = match lines with
    | [] => false
    | line :: _ => startswith line DOCTYPE
    end.
Proof.
  destruct lines as [|l1 [|l2 rest]]; [reflexivity| |];
    cbn [doctype_in_file Nat.add Nat.eqb]; now destruct (startswith l1 DOCTYPE).
Qed.

Lemma doctype_in_view_two_rows (v : View) :
  doctype_in_view v (seq 0 2)
  = str_eqb (coorded_substr v (0, 0) (0, List.length DOCTYPE)) DOCTYPE
    || str_eqb (coorded_substr v (1, 0) (1, List.length DOCTYPE)) DOCTYPE.
Proof.
  cbn [seq doctype_in_view].
  destruct (str_eqb (coorded_substr v (0, 0) _) DOCTYPE); [reflexivity|].
  now destruct (str_eqb (coorded_substr v (1, 0) _) DOCTYPE).
Qed.

(** C3, as the code has it.  The check answers [None] whenever it has
    no non-empty path to look at, from the argument or from the buffer,
    and besides that only for JSON and YAML on a path without appendix
    or extension when there is no buffer.  With a buffer and such a
    path the answer is a boolean: [False] for the property list when
    neither of the first two rows starts with the marker, [False] for
    JSON and YAML when the scope differs. *)
Theorem file_is_valid_none_cases (w : World) (cls : Format)
    (view : option View) (fp : option str) :
  (str_truthy (file_path_or_view fp view) = false ->
   file_is_valid w cls view fp = Return None)
  /\ (file_is_valid w cls view fp = Return None ->
      str_truthy (file_path_or_view fp view) = false
      \/ (cls <> PlistLoader /\ view = None
          /\ exists p, file_path_or_view fp view = Some p
                       /\ appendix_check cls p || extension_check w cls p = false))
  /\ (forall (v : View) (p : str),
        view = Some v -> file_path_or_view fp view = Some p -> p <> [] ->
        appendix_check cls p || extension_check w cls p = false ->
        (cls = PlistLoader ->
         str_eqb (coorded_substr v (0, 0) (0, List.length DOCTYPE)) DOCTYPE = false ->
         str_eqb (coorded_substr v (1, 0) (1, List.length DOCTYPE)) DOCTYPE = false ->
         file_is_valid w cls view fp = Return (Some false))
        /\ (forall sc, scope cls = Some sc -> base_scope v <> sc ->
            file_is_valid w cls view fp = Return (Some false))).
Proof.
  split; [apply file_is_valid_no_path|]. split.
  - intro H.
    destruct (str_truthy (file_path_or_view fp view)) eqn:Ht; [right | now left].
    destruct (file_path_or_view fp view) as [p|] eqn:Hp; [|discriminate].
    apply str_truthy_cons in Ht.
    destruct cls.
    + pose proof (LoaderProto_file_is_valid_path w JSONLoader view fp p ltac:(discriminate) Hp Ht) as E.
      simpl in H. rewrite E in H. injection H as H.
      destruct (appendix_check JSONLoader p) eqn:HA, (extension_check w JSONLoader p) eqn:HB;
        try discriminate H.
      destruct view as [v|]; [discriminate H|].
      split; [discriminate|]. split; [reflexivity|].
      exists p. split; [reflexivity | now rewrite HA, HB].
    + exfalso. simpl in H. rewrite (PlistLoader_file_is_valid_path w view fp p Hp Ht) in H.
      destruct (_ || _); [discriminate|].
      destruct view as [v|]; [discriminate|].
      destruct (open_ w p); discriminate.
    + pose proof (LoaderProto_file_is_valid_path w YAMLLoader view fp p ltac:(discriminate) Hp Ht) as E.
      simpl in H. rewrite E in H. injection H as H.
      destruct (appendix_check YAMLLoader p) eqn:HA, (extension_check w YAMLLoader p) eqn:HB;
        try discriminate H.
      destruct view as [v|]; [discriminate H|].
      split; [discriminate|]. split; [reflexivity|].
      exists p. split; [reflexivity | now rewrite HA, HB].
  - intros v p -> Hp Hne Hchecks.
    apply orb_false_iff in Hchecks as [HA HB].
    split.
    + intros -> H0 H1. simpl.
      rewrite (PlistLoader_file_is_valid_path w (Some v) fp p Hp Hne).
      rewrite HA, HB. cbn [orb]. rewrite doctype_in_view_two_rows, H0, H1. reflexivity.
    + intros sc Hsc Hneq.
      assert (Hs : str_eqb (base_scope v) sc = false) by now apply str_eqb_neq.
      destruct cls; try discriminate; simpl.
      * pose proof (LoaderProto_file_is_valid_path w JSONLoader (Some v) fp p ltac:(discriminate) Hp Hne) as E.
        rewrite E, HA, HB. unfold scope_check. rewrite Hsc, Hs. reflexivity.
      * pose proof (LoaderProto_file_is_valid_path w YAMLLoader (Some v) fp p ltac:(discriminate) Hp Hne) as E.
        rewrite E, HA, HB. unfold scope_check. rewrite Hsc, Hs. reflexivity.
Qed.

Lemma file_is_valid_none_cases_witness :
  file_is_valid plain_world YAMLLoader
    (Some (saved_view "a" (lit ".txt") (lit "text.plain") [])) None
  = Return (Some false).
Proof.
  refine (proj2 (proj2 (proj2 (file_is_valid_none_cases plain_world YAMLLoader
            (Some (saved_view "a" (lit ".txt") (lit "text.plain") [])) None))
            _ (lit "a.txt") eq_refl eq_refl _ _) (lit "source.yaml") eq_refl _).
  - discriminate.
  - reflexivity.
  - discriminate.
Defined.

(** C3 as stated fails on a buffer that is not on disk: the answer is
    [None] although the buffer is there, for the property list without
    a header and for JSON with another scope alike. *)
Lemma file_is_valid_unsaved_buffer_counterexample :
  doctype_in_view (unsaved_view (lit "text.plain") [lit "hello"]) (seq 0 2) = false
  /\ scope_sniff JSONLoader (Some (unsaved_view (lit "text.plain") [lit "hello"])) = false
  /\ file_is_valid plain_world PlistLoader
       (Some (unsaved_view (lit "text.plain") [lit "hello"])) None = Return None
  /\ file_is_valid plain_world JSONLoader
       (Some (unsaved_view (lit "text.plain") [lit "hello"])) None = Return None
  /\ Return (A := option bool) None <> Return (Some false).
Proof. repeat split. discriminate. Qed.

(** ** The extension to save under *)

(** C5, as the code has it.  Without a non-empty path the answer is
    [(None, False)]; with an appendix it is the appendix after a dot and
    [False]; otherwise, when the extension of the path is not the
    canonical one, the validity check is asked: its error, if it raises
    one, goes on to the caller, the extension and [True] are returned if
    it accepts, [(None, False)] if it does not; and [(None, False)] when
    the extension is the canonical one. *)
Theorem get_new_file_ext_cases (w : World) (cls : Format)
    (view : option View) (fp : option str) :
  (str_truthy (file_path_or_view fp view) = false ->
   get_new_file_ext w cls view fp = Return (None, false))
  /\ (forall p : str,
        file_path_or_view fp view = Some p -> p <> [] ->
        (forall a, get_ext_appendix cls (Some p) = Some a ->
                   get_new_file_ext w cls view fp = Return (Some (dot :: a), false))
        /\ (get_ext_appendix cls (Some p) = None ->
            (snd (os_path.splitext p) = dot :: ext cls ->
             get_new_file_ext w cls view fp = Return (None, false))
            /\ (snd (os_path.splitext p) <> dot :: ext cls ->
                (forall v, file_is_valid w cls view (Some p) = Return v ->
                           get_new_file_ext w cls view fp
                           = Return (if truthy v then (Some (snd (os_path.splitext p)), true)
                                     else (None, false)))
                /\ (forall e, file_is_valid w cls view (Some p) = Raise e ->
                              get_new_file_ext w cls view fp = Raise e))))
  /\ (forall p : str,
        get_ext_appendix JSONLoader (Some p) = Some (lit "local") ->
        get_new_file_ext w JSONLoader view (Some p) = Return (Some (lit ".local"), false))
  /\ (forall v : View,
        base_scope v = lit "source.yaml" ->
        get_new_file_ext w YAMLLoader (Some v) (Some (lit "a.txt"))
        = Return (Some (lit ".txt"), true)).
Proof.
  assert (Happ : forall (c : Format) (vw : option View) (f : option str) (p a : str),
             file_path_or_view f vw = Some p -> p <> [] ->
             get_ext_appendix c (Some p) = Some a ->
             get_new_file_ext w c vw f = Return (Some (dot :: a), false)).
  { intros c vw f p a Hp Hne Ha. unfold get_new_file_ext. rewrite Hp.
    destruct p as [|x p]; [congruence|]. cbn [str_truthy negb]. rewrite Ha.
    destruct (get_ext_appendix_spec c) as (_ & Hs & _).
    destruct (Hs _ _ Ha) as (_ & _ & _ & _ & Hane & _).
    destruct a; [congruence | reflexivity]. }
  split; [|split; [|split]].
  - intro H. unfold get_new_file_ext. now rewrite H.
  - intros p Hp Hne. split; [intros a; now apply Happ|].
    intro Hnone. unfold get_new_file_ext. rewrite Hp.
    destruct p as [|x p]; [congruence|]. cbn [str_truthy negb]. rewrite Hnone.
    cbn [str_truthy]. split.
    + intros ->. now rewrite str_eqb_refl.
    + intro Hd. apply str_eqb_neq in Hd. rewrite Hd. cbn [negb].
      split.
      * intros v ->. simpl. now destruct (truthy v).
      * intros e ->. reflexivity.
  - intros p Ha.
    assert (Hne : p <> []) by (intros ->; discriminate Ha).
    exact (Happ JSONLoader view (Some p) p (lit "local")
             (file_path_or_view_given p view Hne) Hne Ha).
  - intros v Hv. unfold get_new_file_ext, file_is_valid, LoaderProto_file_is_valid.
    cbn. unfold scope_check. cbn. rewrite Hv.
    destruct (str_eqb (path_to_dict_ext w _) _); reflexivity.
Qed.

Lemma get_new_file_ext_cases_witness :
  get_new_file_ext plain_world JSONLoader None (Some (lit "config.json-local"))
  = Return (Some (lit ".local"), false).
Proof.
  refine (proj1 (proj2 (proj2 (get_new_file_ext_cases plain_world JSONLoader None
            (Some (lit "config.json-local"))))) (lit "config.json-local") _).
  reflexivity.
Defined.

(** C5 as stated fails for the property list on a path without
    appendix or extension when there is no buffer and the file cannot be
    opened: the validity check does not accept the file, and the answer
    is not [(None, False)] but the error of [open]. *)
Lemma get_new_file_ext_unreadable_counterexample :
  get_ext_appendix PlistLoader (Some (lit "a.txt")) = None
  /\ file_is_valid plain_world PlistLoader None (Some (lit "a.txt")) = Raise no_such_file
  /\ get_new_file_ext plain_world PlistLoader None (Some (lit "a.txt")) = Raise no_such_file
  /\ Raise (A := option str * bool) no_such_file <> Return (None, false).
Proof. repeat split. discriminate. Qed.

(** ** Sniffing the property list from the file *)

(** C6, as the code has it.  For the property list on a path without
    appendix or extension and without a buffer, the check opens the
    file: the error of [open] goes on to the caller; a first line that
    starts with the marker gives [True]; when neither of the first two
    lines starts with it the answer is [False]. *)
Theorem PlistLoader_file_is_valid_from_file (w : World) (p : str) :
  p <> [] ->
  appendix_check PlistLoader p = false ->
  extension_check w PlistLoader p = false ->
  (forall e, open_ w p = Raise e ->
             file_is_valid w PlistLoader None (Some p) = Raise e)
  /\ (forall f, open_ w p = Return f ->
        (forall line rest,
            readlines (f_content f) = line :: rest ->
            startswith line DOCTYPE = true ->
            file_is_valid w PlistLoader None (Some p) = Return (Some true))
        /\ ((forall line, In line (firstn 2 (readlines (f_content f))) ->
                          startswith line DOCTYPE = false) ->
            file_is_valid w PlistLoader None (Some p) = Return (Some false))).
Proof.
  intros Hne HA HB. simpl.
  rewrite (PlistLoader_file_is_valid_path w None (Some p) p
             (file_path_or_view_given p None Hne) Hne).
  rewrite HA, HB. cbn [orb]. split.
  - intros e ->. reflexivity.
  - intros f ->. cbn [obind]. rewrite doctype_in_file_first_line. split.
    + intros line rest -> Hl. now rewrite Hl.
    + intro Hall. destruct (readlines (f_content f)) as [|line rest]; [reflexivity|].
      rewrite (Hall line); [reflexivity|]. now left.
Qed.

Lemma PlistLoader_file_is_valid_from_file_witness :
  file_is_valid plist_on_disk PlistLoader None (Some (lit "Info.xml")) = Return (Some true).
Proof.
  refine (proj1 (proj2 (PlistLoader_file_is_valid_from_file plist_on_disk (lit "Info.xml")
            _ _ _) _ eq_refl) _ _ eq_refl _).
  - discriminate.
  - reflexivity.
  - reflexivity.
  - reflexivity.
Defined.

(** C6 as stated fails when the file cannot be opened: the check does
    not answer [False], it raises the error of [open]. *)
Lemma PlistLoader_file_is_valid_unreadable_counterexample :
  appendix_check PlistLoader (lit "a.txt") = false
  /\ extension_check plain_world PlistLoader (lit "a.txt") = false
  /\ open_ plain_world (lit "a.txt") = Raise no_such_file
  /\ file_is_valid plain_world PlistLoader None (Some (lit "a.txt")) = Raise no_such_file
  /\ Raise (A := option bool) no_such_file <> Return (Some false).
Proof. repeat split. discriminate. Qed.

(** The loop over the file leaves at its second line before looking at
    it: a marker there is not seen, while the loop over the buffer sees
    it. *)
Lemma PlistLoader_second_line_not_read :
  file_is_valid doctype_on_second_line PlistLoader None (Some (lit "Info.xml"))
  = Return (Some false)
  /\ file_is_valid doctype_on_second_line PlistLoader
       (Some (unsaved_view (lit "text.xml")
                [lit "<?xml version=1.0?>"; lit "<!DOCTYPE plist PUBLIC>"]))
       (Some (lit "Info.xml"))
     = Return (Some true).
Proof. split; reflexivity. Qed.

(** ** Formatting the lines *)

Lemma format_not_a_file (n : str) :
  py_format (lit "Not a %s file.") [n] = Return (lit "Not a " ++ n ++ lit " file.").
Proof. reflexivity. Qed.

Lemma format_parsing (n p : str) :
  py_format (lit "Parsing %s... (%s)") [n; p]
  = Return (lit "Parsing " ++ n ++ lit "... (" ++ p ++ lit ")").
Proof. reflexivity. Qed.

Lemma format_debug_JSON (p m : str) :
  py_format (debug_base JSONLoader) [p; m]
  = Return (lit "Error parsing JSON " ++ [dquote] ++ p ++ [dquote] ++ lit ": " ++ m).
Proof. cbn. now rewrite app_nil_r. Qed.

Lemma format_error_opening (p m : str) :
  py_format error_opening [p; m]
  = Return (lit "Error opening " ++ [dquote] ++ p ++ [dquote] ++ lit ": " ++ m).
Proof. cbn. now rewrite app_nil_r. Qed.

Lemma format_debug_YAML (m : str) :
  py_format (debug_base YAMLLoader) [m] = Return (lit "Error parsing YAML: " ++ m).
Proof. cbn. now rewrite app_nil_r. Qed.

Lemma format_debug_Plist_four (p m l c : str) :
  py_format (debug_base PlistLoader) [p; m; l; c]
  = Return (lit "Error parsing Property List " ++ [dquote] ++ p ++ [dquote]
            ++ lit ": " ++ m ++ lit ", line " ++ l ++ lit ", column " ++ c).
Proof. cbn. now rewrite app_nil_r. Qed.

(** Two arguments do not fill the four places of the property list's
    [debug_base]. *)
Lemma format_debug_Plist_two (p m : str) :
  py_format (debug_base PlistLoader) [p; m]
  = Raise (TypeError (lit "not enough arguments for format string")).
Proof. reflexivity. Qed.

Create Rewrite HintDb formats.

#[local] Hint Rewrite format_not_a_file format_parsing format_debug_JSON
  format_error_opening format_debug_YAML format_debug_Plist_four
  format_debug_Plist_two : formats.

(** ** The handlers of [parse] *)

(** Takes [parse], for the class that [Hcls] gives, down to the outcome
    of its [try] body. *)
Ltac run_parse Hcls :=
  unfold parse; rewrite Hcls;
  unfold JSONLoader_parse, PlistLoader_parse, YAMLLoader_parse,
    try_except, lift, mbind, write_line, mret.

Ltac run_handler He :=
  rewrite He; cbn [exn_str]; autorewrite with formats; reflexivity.

Section Handlers.

Variables (w : World) (self : Loader) (o : OutputPanel).

Lemma JSONLoader_parse_ok (v : pyobj) :
  self_class self = JSONLoader ->
  obind (open_ w (self_file_path self)) (json_load w) = Return v ->
  parse w self o = (Return v, o).
Proof. intros Hcls Hv. run_parse Hcls. now rewrite Hv. Qed.

Lemma JSONLoader_parse_ValueError (m : str) :
  self_class self = JSONLoader ->
  obind (open_ w (self_file_path self)) (json_load w) = Raise (ValueError m) ->
  parse w self o
  = (Return PyNone,
     panel_write_line o
       (lit "Error parsing JSON " ++ [dquote] ++ self_file_path self ++ [dquote]
        ++ lit ": " ++ m)).
Proof. intros Hcls He. run_parse Hcls. run_handler He. Qed.

Lemma JSONLoader_parse_IOError (m : str) :
  self_class self = JSONLoader ->
  obind (open_ w (self_file_path self)) (json_load w) = Raise (IOError m) ->
  parse w self o
  = (Return PyNone,
     panel_write_line o
       (lit "Error opening " ++ [dquote] ++ self_file_path self ++ [dquote]
        ++ lit ": " ++ m)).
Proof. intros Hcls He. run_parse Hcls. run_handler He. Qed.

(** What JSON's [parse] raises is what its decoder raised outside the
    two classes it has handlers for. *)
Lemma JSONLoader_parse_raises (e : exn) :
  self_class self = JSONLoader ->
  fst (parse w self o) = Raise e ->
  obind (open_ w (self_file_path self)) (json_load w) = Raise e
  /\ (forall m, e <> ValueError m) /\ (forall m, e <> IOError m).
Proof.
  intros Hcls. run_parse Hcls.
  destruct (obind (open_ w (self_file_path self)) (json_load w)) as [v|e0];
    [discriminate|].
  destruct e0; cbn [exn_str fst]; autorewrite with formats; cbn [fst];
    intro H; try discriminate H; injection H as <-;
    (split; [reflexivity | split; discriminate]).
Qed.


Lemma YAMLLoader_parse_YAMLError (m : str) :
  self_class self = YAMLLoader ->
  obind (open_ w (self_file_path self)) (yaml_safe_load w) = Raise (YAMLError m) ->
  parse w self o
  = (Return PyNone, panel_write_line o (lit "Error parsing YAML: " ++ _join_multiline m)).
Proof. intros Hcls He. run_parse Hcls. run_handler He. Qed.

Lemma YAMLLoader_parse_IOError (m : str) :
  self_class self = YAMLLoader ->
  obind (open_ w (self_file_path self)) (yaml_safe_load w) = Raise (IOError m) ->
  parse w self o
  = (Return PyNone,
     panel_write_line o
       (lit "Error opening " ++ [dquote] ++ self_file_path self ++ [dquote]
        ++ lit ": " ++ m)).
Proof. intros Hcls He. run_parse Hcls. run_handler He. Qed.

Lemma YAMLLoader_parse_raises (e : exn) :
  self_class self = YAMLLoader ->
  fst (parse w self o) = Raise e ->
  obind (open_ w (self_file_path self)) (yaml_safe_load w) = Raise e
  /\ (forall m, e <> YAMLError m) /\ (forall m, e <> IOError m).
Proof.
  intros Hcls. run_parse Hcls.
  destruct (obind (open_ w (self_file_path self)) (yaml_safe_load w)) as [v|e0];
    [discriminate|].
  destruct e0; cbn [exn_str fst]; autorewrite with formats; cbn [fst];
    intro H; try discriminate H; injection H as <-;
    (split; [reflexivity | split; discriminate]).
Qed.

Lemma PlistLoader_parse_ok (v : pyobj) :
  self_class self = PlistLoader ->
  readPlist w (self_file_path self) = Return v ->
  parse w self o = (Return v, o).
Proof. intros Hcls Hv. run_parse Hcls. now rewrite Hv. Qed.

(** The handler for [ExpatError] writes the translated code with the
    line and the column of the error. *)
Lemma PlistLoader_parse_ExpatError (m : str) (code lineno offset : Z) :
  self_class self = PlistLoader ->
  readPlist w (self_file_path self) = Raise (ExpatError m code lineno offset) ->
  parse w self o
  = (Return PyNone,
     panel_write_line o
       (lit "Error parsing Property List " ++ [dquote] ++ self_file_path self ++ [dquote]
        ++ lit ": " ++ ErrorString w code
        ++ lit ", line " ++ str_of_int lineno
        ++ lit ", column " ++ str_of_int offset)).
Proof. intros Hcls He. run_parse Hcls. run_handler He. Qed.

(** The handler for every other exception formats with too few
    arguments: it raises on its own, and nothing is written. *)
Lemma PlistLoader_parse_other (e : exn) :
  self_class self = PlistLoader ->
  readPlist w (self_file_path self) = Raise e ->
  (forall m code lineno offset, e <> ExpatError m code lineno offset) ->
  parse w self o = (Raise (TypeError (lit "not enough arguments for format string")), o).
Proof.
  intros Hcls He Hne. run_parse Hcls. rewrite He.
  destruct e; try (now autorewrite with formats).
  exfalso. now apply (Hne msg code lineno offset).
Qed.

End Handlers.

(** ** Parsing JSON *)

Lemma startswith_app (s u : str) : startswith s u = true <-> exists b, s = u ++ b.
Proof.
  revert s; induction u as [|c u IH]; intros s.
  - split; [intros _; now exists s | intros _; now destruct s].
  - destruct s as [|x s]; simpl.
    + split; [discriminate | intros [b H]; discriminate H].
    + rewrite andb_true_iff, IH. split.
      * intros [Hx [b ->]]. apply Ascii.eqb_eq in Hx. subst x. now exists b.
      * intros [b H]. injection H as -> ->. split; [apply Ascii.eqb_refl | now exists b].
Qed.

Lemma has_substring_contains (s u : str) : has_substring s u = true <-> contains s u.
Proof.
  induction s as [|x s IH]; cbn [has_substring]; rewrite orb_true_iff, startswith_app.
  - split.
    + intros [[b H]|H]; [|discriminate H]. exists [], b. exact H.
    + intros (a & b & H). left. destruct a; [|discriminate H]. now exists b.
  - rewrite IH. split.
    + intros [[b H]|(a & b & ->)]; [exists [], b; exact H | now exists (x :: a), b].
    + intros ([|y a] & b & H).
      * left. now exists b.
      * right. injection H as _ ->. now exists a, b.
Qed.

(** C7, as the code has it.  When the decoder returns a value [parse]
    returns it and writes nothing; on a [ValueError] of the decoder it
    writes the one line [Error parsing JSON "<path>": <message>], with
    the message of the decoder as it is, whatever it carries, and
    returns [None]; on an [IOError] it writes the one line
    [Error opening "<path>": <message>] and returns [None]; in neither
    of these cases does it raise.  An exception of any other class
    goes on to the caller, and nothing is written. *)
Theorem JSONLoader_parse_spec (w : World) (self : Loader) (o : OutputPanel) :
  self_class self = JSONLoader ->
  (forall f v,
      open_ w (self_file_path self) = Return f -> json_load w f = Return v ->
      parse w self o = (Return v, o))
  /\ (forall f m,
      open_ w (self_file_path self) = Return f -> json_load w f = Raise (ValueError m) ->
      parse w self o
      = (Return PyNone,
         panel_write_line o
           (lit "Error parsing JSON " ++ [dquote] ++ self_file_path self ++ [dquote]
            ++ lit ": " ++ m)))
  /\ (forall m,
      obind (open_ w (self_file_path self)) (json_load w) = Raise (IOError m) ->
      parse w self o
      = (Return PyNone,
         panel_write_line o
           (lit "Error opening " ++ [dquote] ++ self_file_path self ++ [dquote]
            ++ lit ": " ++ m)))
  /\ (forall e,
      obind (open_ w (self_file_path self)) (json_load w) = Raise e ->
      (forall m, e <> ValueError m) -> (forall m, e <> IOError m) ->
      parse w self o = (Raise e, o))
  /\ (forall m,
      contains (lit "Error parsing JSON " ++ [dquote] ++ self_file_path self ++ [dquote]
                ++ lit ": " ++ m) (self_file_path self)
      /\ forall u,
          contains m u ->
          contains (lit "Error parsing JSON " ++ [dquote] ++ self_file_path self ++ [dquote]
                    ++ lit ": " ++ m) u).
Proof.
  intro Hcls. split; [|split; [|split; [|split]]].
  - intros f v Hf Hv. apply JSONLoader_parse_ok; [exact Hcls|]. now rewrite Hf.
  - intros f m Hf Hm. apply JSONLoader_parse_ValueError; [exact Hcls|]. now rewrite Hf.
  - intros m Hm. now apply JSONLoader_parse_IOError.
  - intros e He HV HI. run_parse Hcls. rewrite He.
    destruct e; try reflexivity; exfalso; [eapply HV | eapply HI]; reflexivity.
  - intro m. split.
    + exists (lit "Error parsing JSON " ++ [dquote]), ([dquote] ++ lit ": " ++ m).
      now rewrite <- !app_assoc.
    + intros u (a & b & ->).
      exists (lit "Error parsing JSON " ++ [dquote] ++ self_file_path self ++ [dquote]
              ++ lit ": " ++ a), b.
      now rewrite <- !app_assoc.
Qed.

Lemma JSONLoader_parse_spec_witness :
  parse trailing_comma settings_json empty_panel
  = (Return PyNone,
     {| panel_path := [];
        panel_lines :=
          [lit "Error parsing JSON " ++ [dquote] ++ lit "settings.json" ++ [dquote]
           ++ lit ": Expecting property name: line 1 column 7 (char 7)"] |}).
Proof.
  exact (proj1 (proj2 (JSONLoader_parse_spec trailing_comma settings_json empty_panel
                         eq_refl)) _ _ eq_refl eq_refl).
Defined.

(** C7 as stated fails where the message of the decoder carries no
    line and no column, as for an empty document: the line that is
    written has neither.  And where the decoder raises outside
    [ValueError] and [IOError], [parse] raises. *)
Lemma JSONLoader_parse_message_counterexample :
  parse empty_document empty_json empty_panel
  = (Return PyNone,
     {| panel_path := [];
        panel_lines :=
          [lit "Error parsing JSON " ++ [dquote] ++ lit "empty.json" ++ [dquote]
           ++ lit ": No JSON object could be decoded"] |})
  /\ ~ contains (lit "Error parsing JSON " ++ [dquote] ++ lit "empty.json" ++ [dquote]
                 ++ lit ": No JSON object could be decoded") (lit "line")
  /\ ~ contains (lit "Error parsing JSON " ++ [dquote] ++ lit "empty.json" ++ [dquote]
                 ++ lit ": No JSON object could be decoded") (lit "column")
  /\ parse nested_too_deep empty_json empty_panel
     = (Raise (OtherError (lit "maximum recursion depth exceeded")), empty_panel).
Proof.
  split; [reflexivity|]. split; [|split; [|reflexivity]];
    intro H; apply has_substring_contains in H; vm_compute in H; discriminate H.
Qed.

(** ** Parsing property lists *)

(** C9 fails on the code: for well-formed XML that is not a valid
    property list, and for a file that is not there, [parse] writes no
    line and returns nothing: the formatting in the handler for the
    other exceptions raises [TypeError] to the caller. *)
Theorem PlistLoader_parse_generic_failure_raises :
  parse not_a_plist info_plist empty_panel
  = (Raise (TypeError (lit "not enough arguments for format string")), empty_panel)
  /\ parse plist_missing info_plist empty_panel
     = (Raise (TypeError (lit "not enough arguments for format string")), empty_panel).
Proof. split; reflexivity. Qed.

(** ** Parsing YAML *)



Lemma split_nl_not_nil (s : str) : split_nl s <> [].
Proof.
  destruct s as [|c s]; simpl; [discriminate|].
  destruct (Ascii.eqb c newline); [discriminate|].
  destruct (split_nl s); discriminate.
Qed.













(** Joining the lines again with the newline gives the string back. *)
Lemma join_split_nl (s : str) : join [newline] (split_nl s) = s.
Proof.
  induction s as [|c s IH]; [reflexivity|].
  cbn [split_nl]. destruct (Ascii.eqb c newline) eqn:Hc.
  - apply Ascii.eqb_eq in Hc. subst c.
    destruct (split_nl s) as [|l ls] eqn:E; [now apply split_nl_not_nil in E|].
    change (join [newline] ([] :: l :: ls)) with ([] ++ [newline] ++ join [newline] (l :: ls)).
    now rewrite IH.
  - destruct (split_nl s) as [|l ls] eqn:E; [now apply split_nl_not_nil in E|].
    destruct ls as [|l' ls].
    + simpl in *. now rewrite IH.
    + change (join [newline] ((c :: l) :: l' :: ls))
        with (c :: (l ++ [newline] ++ join [newline] (l' :: ls))).
      change (join [newline] (l :: l' :: ls))
        with (l ++ [newline] ++ join [newline] (l' :: ls)) in IH.
      now rewrite IH.
Qed.








(** ** Loading *)

Lemma load_of_is_valid (w : World) (self : Loader) (o : OutputPanel) (v : option bool) :
  is_valid w self = Return v ->
  load w self o
  = if truthy v then parse w self (panel_write_line o (trace_line self))
    else (Raise (not_a_file self), o).
Proof.
  intro Hv. unfold load, mbind, lift, write_line, mraise. rewrite Hv.
  destruct (truthy v); cbn [negb]; now autorewrite with formats.
Qed.

(** The check of the prototype, which JSON and YAML use, never raises. *)
Lemma is_valid_returns (w : World) (self : Loader) :
  self_class self <> PlistLoader -> exists v, is_valid w self = Return v.
Proof.
  intro Hcls. unfold is_valid, file_is_valid.
  assert (E : exists v, LoaderProto_file_is_valid w (self_class self) (self_view self)
                          (Some (self_file_path self)) = Return v).
  { unfold LoaderProto_file_is_valid. destruct (negb _); [now eexists|].
    destruct (file_path_or_view _ _); now eexists. }
  destruct (self_class self); [exact E | contradiction | exact E].
Qed.

(** C1, as the code has it.  [load] raises [Not a <Name> file.] when
    the validity check returns a value that is not true, and nothing is
    written; an error the validity check itself raises goes on to the
    caller; when the file is accepted [load] writes the trace line and
    goes on as [parse] does.  Of what [parse] meets, JSON swallows
    [ValueError] and [IOError], YAML [YAMLError] and [IOError], the
    property list [ExpatError], each into one line and a [None] result;
    JSON and YAML raise only what their decoder raised outside these
    classes. *)
Theorem load_spec (w : World) (self : Loader) (o : OutputPanel) :
  (forall v, is_valid w self = Return v -> truthy v = false ->
             load w self o = (Raise (not_a_file self), o))
  /\ (forall e, is_valid w self = Raise e -> load w self o = (Raise e, o))
  /\ (forall v, is_valid w self = Return v -> truthy v = true ->
                load w self o = parse w self (panel_write_line o (trace_line self)))
  /\ (forall o' e,
        self_class self = JSONLoader ->
        obind (open_ w (self_file_path self)) (json_load w) = Raise e ->
        (exists m, e = ValueError m) \/ (exists m, e = IOError m) ->
        exists line, parse w self o' = (Return PyNone, panel_write_line o' line))
  /\ (forall o' e,
        self_class self = YAMLLoader ->
        obind (open_ w (self_file_path self)) (yaml_safe_load w) = Raise e ->
        (exists m, e = YAMLError m) \/ (exists m, e = IOError m) ->
        exists line, parse w self o' = (Return PyNone, panel_write_line o' line))
  /\ (forall o' m code lineno offset,
        self_class self = PlistLoader ->
        readPlist w (self_file_path self) = Raise (ExpatError m code lineno offset) ->
        exists line, parse w self o' = (Return PyNone, panel_write_line o' line))
  /\ (forall e,
        self_class self = JSONLoader ->
        fst (load w self o) = Raise e ->
        (e = not_a_file self /\ exists v, is_valid w self = Return v /\ truthy v = false)
        \/ (obind (open_ w (self_file_path self)) (json_load w) = Raise e
            /\ (forall m, e <> ValueError m) /\ (forall m, e <> IOError m)))
  /\ (forall e,
        self_class self = YAMLLoader ->
        fst (load w self o) = Raise e ->
        (e = not_a_file self /\ exists v, is_valid w self = Return v /\ truthy v = false)
        \/ (obind (open_ w (self_file_path self)) (yaml_safe_load w) = Raise e
            /\ (forall m, e <> YAMLError m) /\ (forall m, e <> IOError m))).
Proof.
  split; [|split; [|split; [|split; [|split; [|split; [|split]]]]]].
  - intros v Hv Ht. now rewrite (load_of_is_valid w self o v Hv), Ht.
  - intros e He. unfold load, mbind, lift. now rewrite He.
  - intros v Hv Ht. now rewrite (load_of_is_valid w self o v Hv), Ht.
  - intros o' e Hcls He [[m ->]|[m ->]]; eexists.
    + exact (JSONLoader_parse_ValueError w self o' m Hcls He).
    + exact (JSONLoader_parse_IOError w self o' m Hcls He).
  - intros o' e Hcls He [[m ->]|[m ->]]; eexists.
    + exact (YAMLLoader_parse_YAMLError w self o' m Hcls He).
    + exact (YAMLLoader_parse_IOError w self o' m Hcls He).
  - intros o' m code lineno offset Hcls He. eexists.
    exact (PlistLoader_parse_ExpatError w self o' m code lineno offset Hcls He).
  - intros e Hcls Hr.
    destruct (is_valid_returns w self) as [v Hv]; [rewrite Hcls; discriminate|].
    rewrite (load_of_is_valid w self o v Hv) in Hr. destruct (truthy v) eqn:Ht.
    + right. exact (JSONLoader_parse_raises w self _ e Hcls Hr).
    + left. cbn [fst] in Hr. injection Hr as <-. split; [reflexivity|]. now exists v.
  - intros e Hcls Hr.
    destruct (is_valid_returns w self) as [v Hv]; [rewrite Hcls; discriminate|].
    rewrite (load_of_is_valid w self o v Hv) in Hr. destruct (truthy v) eqn:Ht.
    + right. exact (YAMLLoader_parse_raises w self _ e Hcls Hr).
    + left. cbn [fst] in Hr. injection Hr as <-. split; [reflexivity|]. now exists v.
Qed.

Lemma load_spec_witness :
  load trailing_comma settings_json empty_panel
  = parse trailing_comma settings_json
      (panel_write_line empty_panel (trace_line settings_json)).
Proof.
  exact (proj1 (proj2 (proj2 (load_spec trailing_comma settings_json empty_panel)))
           (Some true) eq_refl eq_refl).
Defined.

(** C1 as stated fails for a property-list loader without a buffer on
    a file that cannot be opened: the error that reaches the caller of
    [load] is the [IOError] of the validity check, not the validation
    failure. *)
Lemma load_unreadable_plist_counterexample :
  init plain_world PlistLoader (Some 1) None (Some (lit "notes.txt")) None
  = Return (notes_txt, empty_panel)
  /\ load plain_world notes_txt empty_panel = (Raise no_such_file, empty_panel)
  /\ no_such_file <> not_a_file notes_txt.
Proof. repeat split. discriminate. Qed.

(** ** Construction *)

(** C10. When neither the [file_path] argument nor the file name of
    the view is a non-empty string, the constructor raises; with a view
    that is not on disk it is [os.path.split] that fails, on [None].
    An instance that was constructed holds a non-empty [file_path], the
    argument or the file name of its view, so that the validity check
    of the instance always has a path to look at. *)
Theorem init_needs_file_name (w : World) (cls : Format) (window_ : option Window)
    (view : option View) (fp : option str) (output : option OutputPanel) :
  (str_truthy fp = false ->
   str_truthy (match view with Some v => file_name v | None => None end) = false ->
   exists e, init w cls window_ view fp output = Raise e)
  /\ (forall v,
        str_truthy fp = false -> view = Some v -> file_name v = None ->
        init w cls window_ view fp output
        = Raise (AttributeError (lit "'NoneType' object has no attribute 'rfind'")))
  /\ (forall self panel,
        init w cls window_ view fp output = Return (self, panel) ->
        self_file_path self <> []
        /\ (fp = Some (self_file_path self)
            \/ exists v, view = Some v /\ file_name v = Some (self_file_path self))
        /\ self_view self = view
        /\ file_path_or_view (Some (self_file_path self)) (self_view self)
           = Some (self_file_path self)).
Proof.
  split; [|split].
  - intros Hfp Hview. unfold init. rewrite Hfp.
    destruct view as [v|].
    + destruct (file_name v) as [[|c n]|] eqn:Hn.
      * exfalso. exact (file_name_ok v Hn).
      * discriminate Hview.
      * destruct window_; simpl; now eexists.
    + destruct window_; simpl; now eexists.
  - intros v Hfp -> Hn. unfold init. rewrite Hfp.
    destruct window_; simpl; now rewrite Hn.
  - intros self panel. unfold init.
    destruct (match window_ with Some wd => Return wd | None => _ end) as [wd|e];
      [|discriminate]. cbn [obind].
    destruct (str_truthy fp) eqn:Hfp.
    + destruct fp as [[|c p]|]; try discriminate Hfp. cbn [obind].
      intro H. injection H as <- _. cbn [self_file_path self_view].
      repeat split; [discriminate | now left].
    + destruct view as [v|]; [|discriminate]. cbn [obind].
      destruct (file_name v) as [[|c n]|] eqn:Hn.
      * exfalso. exact (file_name_ok v Hn).
      * cbn [obind]. intro H. injection H as <- _.
        cbn [self_file_path self_view].
        repeat split; [discriminate | right; now exists v].
      * discriminate.
Qed.

Lemma init_needs_file_name_witness :
  exists e,
    init plain_world JSONLoader (Some 1)
      (Some (unsaved_view (lit "source.json") [])) (Some []) None = Raise e.
Proof.
  exact (proj1 (init_needs_file_name plain_world JSONLoader (Some 1)
                  (Some (unsaved_view (lit "source.json") [])) (Some []) None)
           eq_refl eq_refl).
Defined.

(** * Further properties of the module *)

(** ** Collapsing a message *)

Lemma split_nl_app_newline (a b : str) :
  split_nl (a ++ newline :: b) = split_nl a ++ split_nl b.
Proof.
  induction a as [|c a IH]; [reflexivity|].
  cbn [app split_nl]. rewrite IH.
  destruct (Ascii.eqb c newline); [reflexivity|].
  destruct (split_nl a) as [|l ls] eqn:E; [now apply split_nl_not_nil in E|].
  reflexivity.
Qed.

Lemma join_app (sep : str) (l1 l2 : list str) :
  l1 <> [] -> l2 <> [] -> join sep (l1 ++ l2) = join sep l1 ++ sep ++ join sep l2.
Proof.
  intros H1 H2. induction l1 as [|x l1 IH]; [congruence|].
  destruct l1 as [|y l1].
  - destruct l2 as [|z l2]; [congruence | reflexivity].
  - change (join sep ((x :: y :: l1) ++ l2)) with (x ++ sep ++ join sep ((y :: l1) ++ l2)).
    rewrite IH by discriminate.
    change (join sep (x :: y :: l1)) with (x ++ sep ++ join sep (y :: l1)).
    now rewrite <- !app_assoc.
Qed.

Lemma split_nl_one_line (s : str) : ~ In newline s -> split_nl s = [s].
Proof.
  induction s as [|c s IH]; intro H; [reflexivity|].
  cbn [split_nl]. replace (Ascii.eqb c newline) with false.
  - rewrite IH; [reflexivity | intro Hin; apply H; now right].
  - symmetry. apply Ascii.eqb_neq. intros ->. apply H. now left.
Qed.

Lemma lstrip_length (s : str) : List.length (lstrip s) <= List.length s.
Proof.
  induction s as [|c s IH]; simpl; [lia|]. destruct (is_space c); simpl; lia.
Qed.

Lemma rstrip_length (s : str) : List.length (rstrip s) <= List.length s.
Proof.
  induction s as [|c s IH]; simpl; [lia|].
  destruct (rstrip s); [destruct (is_space c)|]; simpl in *; lia.
Qed.

Lemma strip_length (s : str) : List.length (strip s) <= List.length s.
Proof.
  unfold strip. pose proof (rstrip_length (lstrip s)). pose proof (lstrip_length s). lia.
Qed.

Lemma join_strip_length (ls : list str) :
  List.length (join (lit " ") (map strip ls)) <= List.length (join [newline] ls).
Proof.
  induction ls as [|x ls IH]; [simpl; lia|].
  destruct ls as [|y ls].
  - simpl. apply strip_length.
  - change (join (lit " ") (map strip (x :: y :: ls)))
      with (strip x ++ lit " " ++ join (lit " ") (map strip (y :: ls))).
    change (join [newline] (x :: y :: ls)) with (x ++ [newline] ++ join [newline] (y :: ls)).
    rewrite !length_app. pose proof (strip_length x).
    change (List.length (lit " ")) with 1. change (List.length [newline]) with 1. lia.
Qed.

(** X1. A newline in the message becomes one space between the
    collapsed parts before and after it. *)
Theorem _join_multiline_newline (a b : str) :
  _join_multiline (a ++ newline :: b) = _join_multiline a ++ lit " " ++ _join_multiline b.
Proof.
  unfold _join_multiline. rewrite split_nl_app_newline, map_app.
  apply join_app; intro H; apply map_eq_nil in H; now apply split_nl_not_nil in H.
Qed.

(** X2. A message of one line loses its surrounding white space and
    nothing else. *)
Theorem _join_multiline_one_line (s : str) :
  ~ In newline s -> _join_multiline s = strip s.
Proof.
  intro H. unfold _join_multiline. now rewrite split_nl_one_line.
Qed.

Lemma _join_multiline_one_line_witness :
  _join_multiline (lit "  mapping values are not allowed here ")
  = lit "mapping values are not allowed here".
Proof.
  rewrite (_join_multiline_one_line (lit "  mapping values are not allowed here ")).
  - reflexivity.
  - simpl. intro H. repeat (destruct H as [H|H]; [discriminate H|]). exact H.
Defined.

(** X3. The collapsed message is never longer than the message. *)
Theorem _join_multiline_length (s : str) :
  List.length (_join_multiline s) <= List.length s.
Proof.
  unfold _join_multiline.
  pose proof (join_strip_length (split_nl s)) as H.
  now rewrite join_split_nl in H.
Qed.

(** ** One name, one format *)

(** What follows the last occurrence of [c] is determined by the
    string. *)
Lemma last_occurrence_unique (c : ascii) (p1 p2 t1 t2 : str) :
  p1 ++ c :: t1 = p2 ++ c :: t2 -> ~ In c t1 -> ~ In c t2 -> p1 = p2 /\ t1 = t2.
Proof.
  revert p2; induction p1 as [|x p1 IH]; intros [|y p2] E H1 H2; simpl in E.
  - injection E as <-. auto.
  - injection E as <- ->. exfalso. apply H1, in_or_app. right. now left.
  - injection E as -> <-. exfalso. apply H2, in_or_app. right. now left.
  - injection E as <- E. destruct (IH _ E H1 H2) as [-> ->]. auto.
Qed.

(** And so is what precedes its first occurrence. *)
Lemma first_occurrence_unique (c : ascii) (e1 e2 a1 a2 : str) :
  e1 ++ c :: a1 = e2 ++ c :: a2 -> ~ In c e1 -> ~ In c e2 -> e1 = e2 /\ a1 = a2.
Proof.
  revert e2; induction e1 as [|x e1 IH]; intros [|y e2] E H1 H2; simpl in E.
  - injection E as <-. auto.
  - injection E as <- _. exfalso. apply H2. now left.
  - injection E as -> _. exfalso. apply H1. now left.
  - injection E as <- E.
    destruct (IH _ E) as [-> ->]; auto; intro H; [apply H1 | apply H2]; now right.
Qed.

Lemma ext_letters_not_dash (cls : Format) (c : ascii) :
  In c (ext cls) -> sre_lower c <> sre_lower dash.
Proof.
  destruct cls; simpl; intros H;
    repeat (destruct H as [<-|H]; [vm_compute; discriminate|]); contradiction.
Qed.

Lemma same_letters_no_dash (cls : Format) (e : str) :
  same_letters e (ext cls) -> ~ In dash e.
Proof.
  unfold same_letters. generalize (ext_letters_not_dash cls).
  generalize (ext cls) as pat. intros pat Hpat H.
  induction H as [|x c e pat' Hxc _ IH]; simpl; [tauto|].
  intros [->|Hin].
  - apply (Hpat c); [now left | exact Hxc].
  - apply IH; [|exact Hin]. intros c' Hc'. apply Hpat. now right.
Qed.

(** The letters of two formats never spell the same extension. *)
Lemma same_letters_one_format (c1 c2 : Format) (e : str) :
  same_letters e (ext c1) -> same_letters e (ext c2) -> c1 = c2.
Proof.
  unfold same_letters. intros H1 H2.
  destruct c1, c2; try reflexivity; exfalso; simpl in H1, H2;
    repeat match goal with
           | H : Forall2 _ _ (_ :: _) |- _ => inversion H; subst; clear H
           | H : Forall2 _ _ [] |- _ => inversion H; subst; clear H
           | H : Forall2 _ [] _ |- _ => inversion H; subst; clear H
           end;
    match goal with
    | A : sre_lower ?a = sre_lower ?x, B : sre_lower ?b = sre_lower ?x |- _ =>
        assert (E : sre_lower a = sre_lower b) by congruence;
        vm_compute in E; discriminate E
    end.
Qed.

(** The shape of a name that carries an appendix. *)
Lemma get_ext_appendix_shape (cls : Format) (f : option str) (a : str) :
  get_ext_appendix cls f = Some a ->
  exists p e, f = Some (p ++ dot :: e ++ dash :: a)
              /\ same_letters e (ext cls) /\ a <> [] /\ ~ In dot a.
Proof.
  intro H. rewrite get_ext_appendix_search in H.
  destruct (str_truthy f); [|discriminate].
  destruct f as [f|]; [|discriminate].
  destruct (ext_search cls f) as [[g|]|] eqn:Hs; try discriminate.
  destruct (str_truthy (Some g)); [|discriminate]. injection H as ->.
  apply ext_search_sound in Hs as (p & s' & -> & Hh).
  apply match_here_sound in Hh as (e & t & -> & He & Ht).
  apply match_tail_group in Ht as (-> & Hne & Hnd).
  now exists p, e.
Qed.

Lemma get_ext_appendix_bare (cls : Format) (p e : str) :
  same_letters e (ext cls) -> get_ext_appendix cls (Some (p ++ dot :: e)) = None.
Proof.
  intro He. rewrite get_ext_appendix_search.
  assert (Hm : match_here cls (dot :: e ++ []) = Some None).
  { rewrite match_here_complete by exact He. reflexivity. }
  rewrite app_nil_r in Hm.
  rewrite (ext_search_at_last_dot _ p _ _ Hm).
  now destruct (str_truthy (Some (p ++ dot :: e))).
Qed.

Lemma same_letters_refl (s : str) : same_letters s s.
Proof. induction s; constructor; auto. Qed.

(** X4. A file name carries an appendix for at most one format: when
    two formats both find an appendix in it, they are the same format
    (and the same appendix). *)
Theorem get_ext_appendix_one_format (c1 c2 : Format) (f : option str) (a1 a2 : str) :
  get_ext_appendix c1 f = Some a1 -> get_ext_appendix c2 f = Some a2 ->
  c1 = c2 /\ a1 = a2.
Proof.
  intros H1 H2.
  apply get_ext_appendix_shape in H1 as (p1 & e1 & -> & He1 & _ & Hd1).
  apply get_ext_appendix_shape in H2 as (p2 & e2 & E & He2 & _ & Hd2).
  injection E as E.
  assert (Hn1 : ~ In dot (e1 ++ dash :: a1)).
  { intro H. apply in_app_or in H as [H|[H|H]];
      [exact (same_letters_no_dot _ _ He1 H) | discriminate H | exact (Hd1 H)]. }
  assert (Hn2 : ~ In dot (e2 ++ dash :: a2)).
  { intro H. apply in_app_or in H as [H|[H|H]];
      [exact (same_letters_no_dot _ _ He2 H) | discriminate H | exact (Hd2 H)]. }
  destruct (last_occurrence_unique dot _ _ _ _ E Hn1 Hn2) as [_ Et].
  destruct (first_occurrence_unique dash _ _ _ _ Et
              (same_letters_no_dash _ _ He1) (same_letters_no_dash _ _ He2)) as [<- <-].
  split; [exact (same_letters_one_format _ _ _ He1 He2) | reflexivity].
Qed.

Lemma get_ext_appendix_one_format_witness :
  JSONLoader = JSONLoader /\ lit "local" = lit "local".
Proof.
  exact (get_ext_appendix_one_format JSONLoader JSONLoader
           (Some (lit "config.json-local")) (lit "local") (lit "local") eq_refl eq_refl).
Defined.

(** ** [os.path.splitext] *)

Lemma rfind_from_spec (c : ascii) (s : str) (i acc : Z) :
  rfind_from c s i acc = acc
  \/ ((i <= rfind_from c s i acc)%Z
      /\ exists t, skipn (Z.to_nat (rfind_from c s i acc - i)) s = c :: t).
Proof.
  revert i acc; induction s as [|x s IH]; intros i acc; [now left|].
  cbn [rfind_from].
  destruct (IH (i + 1)%Z (if Ascii.eqb x c then i else acc)) as [E|[Hle [t Ht]]].
  - rewrite E. destruct (Ascii.eqb x c) eqn:Hx; [|now left].
    right. apply Ascii.eqb_eq in Hx. subst x. split; [lia|].
    exists s. now rewrite Z.sub_diag.
  - right. split; [lia|]. exists t.
    set (r := rfind_from c s (i + 1) (if Ascii.eqb x c then i else acc)) in *.
    replace (Z.to_nat (r - i)) with (S (Z.to_nat (r - (i + 1)))) by lia.
    exact Ht.
Qed.

Lemma rfind_lower_bound (c : ascii) (s : str) : (-1 <= rfind c s)%Z.
Proof.
  unfold rfind. destruct (rfind_from_spec c s 0 (-1)) as [->|[H _]]; lia.
Qed.

(** The two parts of [splitext] make up the path. *)
Lemma splitext_app (p : str) :
  p = fst (os_path.splitext p) ++ snd (os_path.splitext p).
Proof.
  unfold os_path.splitext. destruct (_ && _); simpl.
  - symmetry. apply firstn_skipn.
  - symmetry. apply app_nil_r.
Qed.

(** The extension is empty or begins with the dot. *)
Lemma splitext_ext_shape (p : str) :
  snd (os_path.splitext p) = [] \/ exists t, snd (os_path.splitext p) = dot :: t.
Proof.
  unfold os_path.splitext.
  destruct ((rfind "/"%char p <? rfind dot p)%Z) eqn:Hlt; [|now left].
  destruct (existsb _ _); [|now left]. simpl. right.
  apply Z.ltb_lt in Hlt. pose proof (rfind_lower_bound "/"%char p) as Hlb.
  unfold rfind in *.
  destruct (rfind_from_spec dot p 0 (-1)) as [E|[_ [t Ht]]]; [lia|].
  rewrite Z.sub_0_r in Ht. now exists t.
Qed.

(** X5. Appendix and canonical extension exclude each other: in a name
    that carries an appendix for a format, the extension that
    [os.path.splitext] finds is not the canonical extension of that
    format. *)
Theorem appendix_excludes_extension (cls : Format) (p a : str) :
  get_ext_appendix cls (Some p) = Some a ->
  snd (os_path.splitext p) <> dot :: ext cls.
Proof.
  intros Ha Hext.
  pose proof (splitext_app p) as Hp. rewrite Hext in Hp.
  rewrite Hp, (get_ext_appendix_bare cls _ (ext cls) (same_letters_refl _)) in Ha.
  discriminate Ha.
Qed.

Lemma appendix_excludes_extension_witness :
  snd (os_path.splitext (lit "config.yaml-draft")) <> dot :: ext YAMLLoader.
Proof.
  exact (appendix_excludes_extension YAMLLoader (lit "config.yaml-draft") (lit "draft")
           eq_refl).
Defined.

(** ** The extension to save under, and validity *)

Lemma file_is_valid_effective (w : World) (cls : Format)
    (view : option View) (fp : option str) (p : str) :
  file_path_or_view fp view = Some p -> p <> [] ->
  file_is_valid w cls view fp = file_is_valid w cls view (Some p).
Proof.
  intros Hp Hne. pose proof (file_path_or_view_given p view Hne) as Hp'.
  unfold file_is_valid, LoaderProto_file_is_valid, PlistLoader_file_is_valid.
  now rewrite Hp, Hp'.
Qed.

Lemma file_is_valid_appendix (w : World) (cls : Format)
    (view : option View) (p a : str) :
  p <> [] -> get_ext_appendix cls (Some p) = Some a ->
  file_is_valid w cls view (Some p) = Return (Some true).
Proof.
  intros Hne Ha. pose proof (file_path_or_view_given p view Hne) as Hp.
  assert (HA : appendix_check cls p = true) by (unfold appendix_check; now rewrite Ha).
  destruct cls; simpl.
  - rewrite (LoaderProto_file_is_valid_path w JSONLoader view _ p ltac:(discriminate) Hp Hne).
    now rewrite HA.
  - rewrite (PlistLoader_file_is_valid_path w view _ p Hp Hne). now rewrite HA.
  - rewrite (LoaderProto_file_is_valid_path w YAMLLoader view _ p ltac:(discriminate) Hp Hne).
    now rewrite HA.
Qed.

(** What [get_new_file_ext] answers, read backwards. *)
Lemma get_new_file_ext_inv (w : World) (cls : Format)
    (view : option View) (fp : option str) (x : str) (b : bool) :
  get_new_file_ext w cls view fp = Return (Some x, b) ->
  exists p, file_path_or_view fp view = Some p /\ p <> []
    /\ ((b = false /\ exists a, get_ext_appendix cls (Some p) = Some a /\ x = dot :: a)
        \/ (b = true /\ get_ext_appendix cls (Some p) = None
            /\ x = snd (os_path.splitext p) /\ x <> dot :: ext cls
            /\ file_is_valid w cls view (Some p) = Return (Some true))).
Proof.
  unfold get_new_file_ext.
  destruct (file_path_or_view fp view) as [[|c p]|] eqn:Hp; try discriminate.
  cbn [str_truthy negb]. cbv zeta.
  destruct (get_ext_appendix cls (@Some str (c :: p))) as [a|] eqn:Ha.
  - destruct (get_ext_appendix_shape _ _ _ Ha) as (_ & _ & _ & _ & Hane & _).
    destruct a as [|y a]; [congruence|]. cbn [str_truthy]. intro H.
    inversion H; subst. exists (c :: p).
    split; [reflexivity|]. split; [discriminate|]. left.
    split; [reflexivity|]. exists (y :: a). split; [exact Ha | reflexivity].
  - cbn [str_truthy].
    destruct (str_eqb (snd (os_path.splitext (c :: p))) (dot :: ext cls)) eqn:Hx;
      [discriminate|]. cbn [negb]. apply str_eqb_neq in Hx.
    destruct (file_is_valid w cls view _) as [[[|]|]|e] eqn:Hv;
      try discriminate.
    cbn. intro H. inversion H; subst. exists (c :: p).
    split; [reflexivity|]. split; [discriminate|]. right.
    repeat split; [exact Ha | exact Hx | exact Hv].
Qed.

(** X6. An extension is proposed only for a file that the validity
    check of the format accepts: whenever [get_new_file_ext] returns an
    extension, [file_is_valid] on the same arguments returns [True]. *)
Theorem get_new_file_ext_only_for_valid (w : World) (cls : Format)
    (view : option View) (fp : option str) (x : str) (b : bool) :
  get_new_file_ext w cls view fp = Return (Some x, b) ->
  file_is_valid w cls view fp = Return (Some true).
Proof.
  intro H. apply get_new_file_ext_inv in H as (p & Hp & Hne & H).
  rewrite (file_is_valid_effective w cls view fp p Hp Hne).
  destruct H as [(_ & a & Ha & _)|(_ & _ & _ & _ & Hv)]; [|exact Hv].
  exact (file_is_valid_appendix w cls view p a Hne Ha).
Qed.

Lemma get_new_file_ext_only_for_valid_witness :
  file_is_valid plain_world YAMLLoader
    (Some (saved_view "a" (lit ".txt") (lit "source.yaml") [])) None
  = Return (Some true).
Proof.
  exact (get_new_file_ext_only_for_valid plain_world YAMLLoader
           (Some (saved_view "a" (lit ".txt") (lit "source.yaml") [])) None
           (lit ".txt") true eq_refl).
Defined.

(** X7. The extension that [get_new_file_ext] returns is empty or
    begins with a dot; when it comes with the flag [True] it is the
    extension of the file itself, it is not the canonical extension and
    the name has no appendix; when it comes with [False] it is the
    appendix after a dot. *)
Theorem get_new_file_ext_shape (w : World) (cls : Format)
    (view : option View) (fp : option str) (x : str) (b : bool) :
  get_new_file_ext w cls view fp = Return (Some x, b) ->
  (x = [] \/ exists t, x = dot :: t)
  /\ exists p, file_path_or_view fp view = Some p
       /\ (if b
           then x = snd (os_path.splitext p) /\ x <> dot :: ext cls
                /\ get_ext_appendix cls (Some p) = None
           else get_ext_appendix cls (Some p) = Some (tl x) /\ x = dot :: tl x).
Proof.
  intro H. apply get_new_file_ext_inv in H as (p & Hp & Hne & H).
  destruct H as [(-> & a & Ha & ->)|(-> & Ha & -> & Hx & _)].
  - split; [right; now exists a|]. exists p. split; [exact Hp|]. now split.
  - split; [apply splitext_ext_shape|]. exists p. auto.
Qed.

Lemma get_new_file_ext_shape_witness :
  (lit ".local" = [] \/ exists t, lit ".local" = dot :: t)
  /\ exists p, file_path_or_view (Some (lit "config.json-local")) None = Some p
       /\ get_ext_appendix JSONLoader (Some p) = Some (tl (lit ".local"))
       /\ lit ".local" = dot :: tl (lit ".local").
Proof.
  exact (get_new_file_ext_shape plain_world JSONLoader None
           (Some (lit "config.json-local")) (lit ".local") false eq_refl).
Defined.

(** X8. Only the property list without a buffer looks at the disk: for
    JSON and YAML, and for the property list with a buffer, the
    validity check never raises, and two hosts that agree on the
    extension [path_to_dict] gives get the same answer, whatever their
    files and decoders. *)
Theorem file_is_valid_off_disk (w w' : World) (cls : Format)
    (view : option View) (fp : option str) :
  cls <> PlistLoader \/ view <> None ->
  (forall p, path_to_dict_ext w p = path_to_dict_ext w' p) ->
  file_is_valid w cls view fp = file_is_valid w' cls view fp
  /\ exists v, file_is_valid w cls view fp = Return v.
Proof.
  intros Hor Hext.
  assert (Hproto : forall c, LoaderProto_file_is_valid w c view fp
                             = LoaderProto_file_is_valid w' c view fp
                             /\ exists v, LoaderProto_file_is_valid w c view fp = Return v).
  { intro c. unfold LoaderProto_file_is_valid.
    destruct (negb _); [split; [reflexivity | now eexists]|].
    destruct (file_path_or_view fp view) as [p|]; [|split; [reflexivity | now eexists]].
    rewrite Hext. split; [reflexivity | now eexists]. }
  destruct cls; [apply Hproto | | apply Hproto].
  destruct Hor as [H|H]; [contradiction|].
  destruct view as [v|]; [|contradiction].
  simpl. unfold PlistLoader_file_is_valid.
  destruct (negb _); [split; [reflexivity | now eexists]|].
  destruct (file_path_or_view fp (Some v)) as [p|]; [|split; [reflexivity | now eexists]].
  destruct (_ || _); [split; [reflexivity | now eexists]|].
  destruct (doctype_in_view v (seq 0 2)); split; try reflexivity; now eexists.
Qed.

Lemma file_is_valid_off_disk_witness :
  file_is_valid plain_world PlistLoader
    (Some (unsaved_view (lit "text.xml") [lit "<!DOCTYPE plist PUBLIC>"]))
    (Some (lit "Info.xml"))
  = file_is_valid plist_on_disk PlistLoader
      (Some (unsaved_view (lit "text.xml") [lit "<!DOCTYPE plist PUBLIC>"]))
      (Some (lit "Info.xml"))
  /\ exists v,
       file_is_valid plain_world PlistLoader
         (Some (unsaved_view (lit "text.xml") [lit "<!DOCTYPE plist PUBLIC>"]))
         (Some (lit "Info.xml")) = Return v.
Proof.
  refine (file_is_valid_off_disk plain_world plist_on_disk PlistLoader
            (Some (unsaved_view (lit "text.xml") [lit "<!DOCTYPE plist PUBLIC>"]))
            (Some (lit "Info.xml")) _ _).
  - right. discriminate.
  - reflexivity.
Defined.

(** ** The constructor and the wrappers of the instance *)

(** X9. The constructor succeeds exactly when it has a window to take
    (the argument, or a view to ask) and a non-empty file path (the
    argument, or the file name of the view). *)
Theorem init_succeeds_iff (w : World) (cls : Format) (window_ : option Window)
    (view : option View) (fp : option str) (output : option OutputPanel) :
  (exists self panel, init w cls window_ view fp output = Return (self, panel))
  <-> (window_ <> None \/ view <> None)
      /\ str_truthy (file_path_or_view fp view) = true.
Proof.
  unfold init, file_path_or_view. split.
  - intros (self & panel & H).
    destruct window_ as [wd|], view as [v|]; cbn [obind] in H; try discriminate H.
    + split; [left; discriminate|].
      destruct (str_truthy fp) eqn:Hfp; [exact Hfp|]. cbn [obind] in H.
      destruct (file_name v) as [[|c n]|] eqn:Hn; [|reflexivity|discriminate H].
      exfalso. exact (file_name_ok v Hn).
    + split; [left; discriminate|].
      destruct (str_truthy fp) eqn:Hfp; [exact Hfp | discriminate H].
    + split; [right; discriminate|].
      destruct (str_truthy fp) eqn:Hfp; [exact Hfp|]. cbn [obind] in H.
      destruct (file_name v) as [[|c n]|] eqn:Hn; [|reflexivity|discriminate H].
      exfalso. exact (file_name_ok v Hn).
  - intros [Hw Hp].
    assert (Hwd : exists wd,
               match window_ with
               | Some wd => Return wd
               | None =>
                   match view with
                   | None => Raise (AttributeError
                                      (lit "'NoneType' object has no attribute 'window'"))
                   | Some v => Return (match window v with
                                       | Some wd => wd
                                       | None => active_window w
                                       end)
                   end
               end = Return wd).
    { destruct window_; [now eexists|]. destruct view; [now eexists|].
      destruct Hw; contradiction. }
    destruct Hwd as [wd ->]. cbn [obind].
    destruct (str_truthy fp) eqn:Hfp.
    + destruct fp as [[|c p]|]; try discriminate Hfp. cbn [obind]. now do 2 eexists.
    + destruct view as [v|]; [|discriminate Hp]. cbn [obind].
      destruct (file_name v) as [[|c n]|]; try discriminate Hp. now do 2 eexists.
Qed.

Lemma init_succeeds_iff_witness :
  exists self panel,
    init plain_world YAMLLoader None
      (Some (saved_view "a" (lit ".yaml") (lit "source.yaml") [])) None None
    = Return (self, panel).
Proof.
  apply (proj2 (init_succeeds_iff plain_world YAMLLoader None
                  (Some (saved_view "a" (lit ".yaml") (lit "source.yaml") [])) None None)).
  split; [right; discriminate | reflexivity].
Defined.

(** What the constructor puts into the instance. *)
Lemma init_fields (w : World) (cls : Format) (window_ : option Window)
    (view : option View) (fp : option str) (output : option OutputPanel)
    (self : Loader) (panel : OutputPanel) :
  init w cls window_ view fp output = Return (self, panel) ->
  self_class self = cls /\ self_view self = view
  /\ file_path_or_view fp view = Some (self_file_path self)
  /\ self_file_path self <> [].
Proof.
  unfold init, file_path_or_view.
  destruct (match window_ with Some wd => Return wd | None => _ end) as [wd|e];
    [|discriminate]. cbn [obind].
  destruct (str_truthy fp) eqn:Hfp.
  - destruct fp as [[|c p]|]; try discriminate Hfp. cbn [obind].
    intro H. injection H as <- _. cbn [self_class self_view self_file_path].
    repeat split. discriminate.
  - destruct view as [v|]; [|discriminate]. cbn [obind].
    destruct (file_name v) as [[|c n]|] eqn:Hn.
    + exfalso. exact (file_name_ok v Hn).
    + intro H. injection H as <- _. cbn [self_class self_view self_file_path].
      repeat split. discriminate.
    + discriminate.
Qed.

(** X10. On an instance the constructor has built, [is_valid] and
    [new_file_ext] answer what the class methods [file_is_valid] and
    [get_new_file_ext] answer on the view and the file path the
    constructor was given. *)
Theorem instance_wrappers_agree (w w' : World) (cls : Format) (window_ : option Window)
    (view : option View) (fp : option str) (output : option OutputPanel)
    (self : Loader) (panel : OutputPanel) :
  init w cls window_ view fp output = Return (self, panel) ->
  is_valid w' self = file_is_valid w' cls view fp
  /\ new_file_ext w' self = get_new_file_ext w' cls view fp.
Proof.
  intro H. apply init_fields in H as (Hcls & Hview & Hp & Hne).
  unfold is_valid, new_file_ext. rewrite Hcls, Hview. split.
  - symmetry. now apply file_is_valid_effective.
  - unfold get_new_file_ext.
    now rewrite Hp, (file_path_or_view_given _ view Hne).
Qed.

Lemma instance_wrappers_agree_witness :
  is_valid plist_on_disk notes_txt
  = file_is_valid plist_on_disk PlistLoader None (Some (lit "notes.txt"))
  /\ new_file_ext plist_on_disk notes_txt
     = get_new_file_ext plist_on_disk PlistLoader None (Some (lit "notes.txt")).
Proof.
  exact (instance_wrappers_agree plain_world plist_on_disk PlistLoader (Some 1) None
           (Some (lit "notes.txt")) None notes_txt empty_panel eq_refl).
Defined.

(** ** What [parse] and [load] do to the panel *)

Lemma panel_write_nothing (o : OutputPanel) :
  o = {| panel_path := panel_path o; panel_lines := panel_lines o ++ [] |}.
Proof. destruct o. simpl. now rewrite app_nil_r. Qed.

(** [parse] leaves the panel as it is or adds one line to it, and with
    a line added its result is [None]. *)
Lemma parse_panel (w : World) (self : Loader) (o : OutputPanel) :
  snd (parse w self o) = o
  \/ exists line, parse w self o = (Return PyNone, panel_write_line o line).
Proof.
  destruct (self_class self) eqn:Hcls; run_parse Hcls.
  - destruct (obind (open_ w (self_file_path self)) (json_load w)) as [v|e];
      [now left|].
    destruct e; cbn [exn_str]; autorewrite with formats; try (now left);
      right; now eexists.
  - destruct (readPlist w (self_file_path self)) as [v|e]; [now left|].
    destruct e; cbn [exn_str]; autorewrite with formats; try (now left);
      right; now eexists.
  - destruct (obind (open_ w (self_file_path self)) (yaml_safe_load w)) as [v|e];
      [now left|].
    destruct e; cbn [exn_str]; autorewrite with formats; try (now left);
      right; now eexists.
Qed.

(** X11. [parse] never takes a line away from the panel and never
    changes its path: it leaves the panel as it is, or it adds exactly
    one line, and when it adds a line it returns [None] and does not
    raise. *)
Theorem parse_appends_at_most_one_line (w : World) (self : Loader) (o : OutputPanel) :
  (snd (parse w self o) = o
   \/ exists line,
        snd (parse w self o) = panel_write_line o line
        /\ fst (parse w self o) = Return PyNone)
  /\ panel_path (snd (parse w self o)) = panel_path o
  /\ firstn (List.length (panel_lines o)) (panel_lines (snd (parse w self o)))
     = panel_lines o.
Proof.
  destruct (parse_panel w self o) as [H|[line H]].
  - rewrite H. split; [now left|]. split; [reflexivity|]. apply firstn_all.
  - rewrite H. cbn [fst snd]. split; [right; now exists line|].
    split; [reflexivity|]. cbn [panel_write_line panel_lines].
    rewrite firstn_app, firstn_all, Nat.sub_diag. simpl. apply app_nil_r.
Qed.

(** X12. [load] writes the trace line exactly when the validity check
    accepts the file, as the first line it adds, and adds at most one
    more line; when the check does not accept, or raises, the panel
    stays as it was.  Its path never changes. *)
Theorem load_panel (w : World) (self : Loader) (o : OutputPanel) :
  panel_path (snd (load w self o)) = panel_path o
  /\ ((exists v, is_valid w self = Return v /\ truthy v = true)
      /\ (panel_lines (snd (load w self o)) = panel_lines o ++ [trace_line self]
          \/ exists line,
               panel_lines (snd (load w self o))
               = panel_lines o ++ [trace_line self; line]
               /\ fst (load w self o) = Return PyNone)
      \/ (~ (exists v, is_valid w self = Return v /\ truthy v = true)
          /\ snd (load w self o) = o
          /\ exists e, fst (load w self o) = Raise e)).
Proof.
  destruct (is_valid w self) as [v|e] eqn:Hv.
  - rewrite (load_of_is_valid w self o v Hv). destruct (truthy v) eqn:Ht.
    + destruct (parse_panel w self (panel_write_line o (trace_line self))) as [H|[line H]].
      * rewrite H. split; [reflexivity|]. left. split; [now exists v|]. now left.
      * rewrite H. cbn [fst snd]. split; [reflexivity|]. left.
        split; [now exists v|]. right. exists line.
        cbn [panel_write_line panel_lines]. now rewrite <- app_assoc.
    + cbn [fst snd]. split; [reflexivity|]. right. split.
      * intros (v' & E & Ht'). congruence.
      * split; [reflexivity | now eexists].
  - unfold load, mbind, lift. rewrite Hv. cbn [fst snd].
    split; [reflexivity|]. right. split.
    + intros (v' & E & _). discriminate E.
    + split; [reflexivity | now eexists].
Qed.

(** X13. [load] hands out data only from a file it accepted: when it
    returns a value, the validity check returned [True], the trace line
    was written, and the value is [None] or what the decoder of the
    format returned for the file. *)
Theorem load_returns_decoded (w : World) (self : Loader) (o : OutputPanel) (v : pyobj) :
  fst (load w self o) = Return v ->
  is_valid w self = Return (Some true)
  /\ firstn (S (List.length (panel_lines o))) (panel_lines (snd (load w self o)))
     = panel_lines o ++ [trace_line self]
  /\ (v = PyNone
      \/ match self_class self with
         | JSONLoader => obind (open_ w (self_file_path self)) (json_load w) = Return v
         | PlistLoader => readPlist w (self_file_path self) = Return v
         | YAMLLoader => obind (open_ w (self_file_path self)) (yaml_safe_load w) = Return v
         end).
Proof.
  intro H.
  destruct (is_valid w self) as [r|e] eqn:Hv.
  2:{ unfold load, mbind, lift in H. rewrite Hv in H. discriminate H. }
  rewrite (load_of_is_valid w self o r Hv) in H |- *.
  destruct r as [[|]|]; try discriminate H. cbn [truthy] in H |- *.
  split; [reflexivity|].
  assert (Hfirst : forall l : list str,
             firstn (S (List.length (panel_lines o))) ((panel_lines o ++ [trace_line self]) ++ l)
             = panel_lines o ++ [trace_line self]).
  { intro l. replace (S (List.length (panel_lines o)))
      with (List.length (panel_lines o ++ [trace_line self]))
      by (rewrite length_app; simpl; lia).
    rewrite firstn_app, firstn_all, Nat.sub_diag. simpl. apply app_nil_r. }
  set (o1 := panel_write_line o (trace_line self)) in *.
  destruct (parse_panel w self o1) as [Hp|[line Hp]].
  - split.
    + rewrite Hp. unfold o1. cbn [panel_write_line panel_lines].
      rewrite <- (app_nil_r (panel_lines o ++ [trace_line self])) at 1. apply Hfirst.
    + clear Hp. revert H. destruct (self_class self) eqn:Hcls; run_parse Hcls.
      * destruct (obind (open_ w (self_file_path self)) (json_load w)) as [v0|e].
        -- cbn [fst]. intro H. injection H as ->. now right.
        -- destruct e; cbn [exn_str]; autorewrite with formats; cbn [fst];
             intro H; try discriminate H; injection H as <-; now left.
      * destruct (readPlist w (self_file_path self)) as [v0|e].
        -- cbn [fst]. intro H. injection H as ->. now right.
        -- destruct e; cbn [exn_str]; autorewrite with formats; cbn [fst];
             intro H; try discriminate H; injection H as <-; now left.
      * destruct (obind (open_ w (self_file_path self)) (yaml_safe_load w)) as [v0|e].
        -- cbn [fst]. intro H. injection H as ->. now right.
        -- destruct e; cbn [exn_str]; autorewrite with formats; cbn [fst];
             intro H; try discriminate H; injection H as <-; now left.
  - rewrite Hp in H |- *. cbn [fst snd] in H |- *. injection H as <-.
    split; [|now left]. unfold o1. cbn [panel_write_line panel_lines]. apply Hfirst.
Qed.

Lemma load_returns_decoded_witness :
  is_valid settings_ok settings_json = Return (Some true)
  /\ firstn 1 (panel_lines (snd (load settings_ok settings_json empty_panel)))
     = [trace_line settings_json]
  /\ (PyList [PyInt 1] = PyNone
      \/ obind (open_ settings_ok (lit "settings.json")) (json_load settings_ok)
         = Return (PyList [PyInt 1])).
Proof.
  exact (load_returns_decoded settings_ok settings_json empty_panel (PyList [PyInt 1])
           eq_refl).
Defined.

(** ** The property list's [parse], handler by handler *)

(** X14. [PlistLoader.parse] returns what [plistlib] decoded and
    writes nothing; on an [ExpatError] it adds the one line
    [Error parsing Property List "<path>": <text of the code>, line
    <lineno>, column <offset>], with the numbers in decimal, and
    returns [None]. *)
Theorem PlistLoader_parse_decoded_or_expat (w : World) (self : Loader) (o : OutputPanel) :
  self_class self = PlistLoader ->
  (forall v, readPlist w (self_file_path self) = Return v ->
             parse w self o = (Return v, o))
  /\ (forall m code lineno offset,
        readPlist w (self_file_path self) = Raise (ExpatError m code lineno offset) ->
        parse w self o
        = (Return PyNone,
           panel_write_line o
             (lit "Error parsing Property List " ++ [dquote] ++ self_file_path self
              ++ [dquote] ++ lit ": " ++ ErrorString w code
              ++ lit ", line " ++ str_of_int lineno
              ++ lit ", column " ++ str_of_int offset))).
Proof.
  intro Hcls. split.
  - intros v Hv. now apply PlistLoader_parse_ok.
  - intros m code lineno offset He.
    exact (PlistLoader_parse_ExpatError w self o m code lineno offset Hcls He).
Qed.

Lemma PlistLoader_parse_decoded_or_expat_witness :
  parse mismatched_tag info_plist empty_panel
  = (Return PyNone,
     {| panel_path := [];
        panel_lines :=
          [lit "Error parsing Property List " ++ [dquote] ++ lit "Info.plist" ++ [dquote]
           ++ lit ": mismatched tag, line 3, column 12"] |}).
Proof.
  exact (proj2 (PlistLoader_parse_decoded_or_expat mismatched_tag info_plist empty_panel
                  eq_refl) _ _ _ _ eq_refl).
Defined.

(** X15. For every exception of [plistlib] other than an
    [ExpatError], [PlistLoader.parse] writes nothing and raises
    [TypeError]: the handler gives two arguments to a format of four
    places. *)
Theorem PlistLoader_parse_other_raises (w : World) (self : Loader) (o : OutputPanel)
    (e : exn) :
  self_class self = PlistLoader ->
  readPlist w (self_file_path self) = Raise e ->
  (forall m code lineno offset, e <> ExpatError m code lineno offset) ->
  parse w self o = (Raise (TypeError (lit "not enough arguments for format string")), o).
Proof. apply PlistLoader_parse_other. Qed.

Lemma PlistLoader_parse_other_raises_witness :
  parse plist_missing info_plist empty_panel
  = (Raise (TypeError (lit "not enough arguments for format string")), empty_panel).
Proof.
  apply (PlistLoader_parse_other_raises plist_missing info_plist empty_panel no_such_file).
  - reflexivity.
  - reflexivity.
  - discriminate.
Defined.

(** X16. JSON and YAML report a file that cannot be opened in the same
    way: for the same path and the same error of [open], both add the
    line [Error opening "<path>": <message>] and return [None]. *)
Theorem open_error_reported_alike (w : World) (self_json self_yaml : Loader)
    (o : OutputPanel) (m : str) :
  self_class self_json = JSONLoader -> self_class self_yaml = YAMLLoader ->
  self_file_path self_json = self_file_path self_yaml ->
  open_ w (self_file_path self_json) = Raise (IOError m) ->
  parse w self_json o
  = (Return PyNone,
     panel_write_line o
       (lit "Error opening " ++ [dquote] ++ self_file_path self_json ++ [dquote]
        ++ lit ": " ++ m))
  /\ parse w self_yaml o = parse w self_json o.
Proof.
  intros Hj Hy Hp Ho.
  rewrite (JSONLoader_parse_IOError w self_json o m Hj) by now rewrite Ho.
  split; [reflexivity|].
  rewrite (YAMLLoader_parse_IOError w self_yaml o m Hy) by now rewrite <- Hp, Ho.
  now rewrite Hp.
Qed.

Lemma open_error_reported_alike_witness :
  parse plain_world
    {| self_class := JSONLoader; self_window := 1; self_view := None;
       self_file_path := lit "missing" |} empty_panel
  = (Return PyNone,
     panel_write_line empty_panel
       (lit "Error opening " ++ [dquote] ++ lit "missing" ++ [dquote]
        ++ lit ": [Errno 2] No such file or directory"))
  /\ parse plain_world
       {| self_class := YAMLLoader; self_window := 1; self_view := None;
          self_file_path := lit "missing" |} empty_panel
     = parse plain_world
         {| self_class := JSONLoader; self_window := 1; self_view := None;
            self_file_path := lit "missing" |} empty_panel.
Proof.
  exact (open_error_reported_alike plain_world
           {| self_class := JSONLoader; self_window := 1; self_view := None;
              self_file_path := lit "missing" |}
           {| self_class := YAMLLoader; self_window := 1; self_view := None;
              self_file_path := lit "missing" |}
           empty_panel _ eq_refl eq_refl eq_refl eq_refl).
Defined.

(** ** The registry *)

Lemma dict_get_three {V} (k1 k2 k3 k : str) (v1 v2 v3 v : V) :
  dict_get [(k1, v1); (k2, v2); (k3, v3)] k = Some v ->
  (k = k1 /\ v = v1) \/ (k = k2 /\ v = v2) \/ (k = k3 /\ v = v3).
Proof.
  cbn [dict_get].
  destruct (str_eqb k1 k) eqn:E1.
  { apply str_eqb_eq in E1. intro H. injection H as <-. auto. }
  destruct (str_eqb k2 k) eqn:E2.
  { apply str_eqb_eq in E2. intro H. injection H as <-. auto. }
  destruct (str_eqb k3 k) eqn:E3; [|discriminate].
  apply str_eqb_eq in E3. intro H. injection H as <-. auto.
Qed.

(** X17. The import ends without error; after it [get] holds each of
    the three formats under its own extension and nothing else (the
    prototype is not in it, and no other key is), and each format has
    the pattern of [_pre_init_] made with its own extension as its
    [ext_regex], while the prototype has none. *)
Theorem registry_after_import :
  exists st, imported = Return st
    /\ (forall cls, dict_get (get st) (ext cls) = Some (class_Loader cls))
    /\ (forall k t, dict_get (get st) k = Some t ->
                    exists cls, k = ext cls /\ t = class_Loader cls)
    /\ (forall cls,
          getattr_ext_regex st (class_Loader cls)
          = Some (lit "(?i)\." ++ ext cls ++ lit "(?:-([^\.]+))?$"))
    /\ getattr_ext_regex st class_LoaderProto = None.
Proof.
  eexists. split; [reflexivity|]. cbn [get]. split; [|split; [|split]].
  - intros []; reflexivity.
  - intros k t H. apply dict_get_three in H as [[-> ->]|[[-> ->]|[-> ->]]].
    + now exists JSONLoader.
    + now exists PlistLoader.
    + now exists YAMLLoader.
  - intros []; reflexivity.
  - reflexivity.
Qed.

(** ** Sniffing the property list *)

(** X18. With a buffer, the property-list check returns [True] exactly
    when the name has an appendix, or its extension is [.plist], or the
    first fifteen columns of row 0 or of row 1 of the buffer are the
    marker; otherwise it returns [False].  It does not raise. *)
Theorem PlistLoader_file_is_valid_with_buffer (w : World) (v : View)
    (fp : option str) (p : str) :
  file_path_or_view fp (Some v) = Some p -> p <> [] ->
  file_is_valid w PlistLoader (Some v) fp
  = Return (Some (is_some (get_ext_appendix PlistLoader (Some p))
                  || str_eqb (snd (os_path.splitext p)) (lit ".plist")
                  || str_eqb (coorded_substr v (0, 0) (0, 15)) (lit "<!DOCTYPE plist")
                  || str_eqb (coorded_substr v (1, 0) (1, 15)) (lit "<!DOCTYPE plist"))).
Proof.
  intros Hp Hne. cbn [file_is_valid].
  rewrite (PlistLoader_file_is_valid_path w (Some v) fp p Hp Hne).
  unfold appendix_check, extension_check, path_extension.
  change (dot :: ext PlistLoader) with (lit ".plist").
  destruct (_ || _); [reflexivity|]. cbn [orb].
  now rewrite doctype_in_view_two_rows.
Qed.

Lemma PlistLoader_file_is_valid_with_buffer_witness :
  file_is_valid plain_world PlistLoader
    (Some (saved_view "I" (lit "nfo.xml") (lit "text.xml")
             [lit "<?xml version=1?>"; lit "<!DOCTYPE plist PUBLIC>"])) None
  = Return (Some true).
Proof.
  exact (PlistLoader_file_is_valid_with_buffer plain_world
           (saved_view "I" (lit "nfo.xml") (lit "text.xml")
              [lit "<?xml version=1?>"; lit "<!DOCTYPE plist PUBLIC>"])
           None (lit "Info.xml") eq_refl ltac:(discriminate)).
Defined.

(** X19. Without a buffer, on a name with neither appendix nor
    extension and a file that opens, the property-list check answers
    by the first line of the file alone: [True] exactly when that line
    starts with the marker.  No later line has a part in the answer. *)
Theorem PlistLoader_file_is_valid_first_line (w : World) (p : str) (f : File) :
  p <> [] ->
  get_ext_appendix PlistLoader (Some p) = None ->
  snd (os_path.splitext p) <> lit ".plist" ->
  open_ w p = Return f ->
  file_is_valid w PlistLoader None (Some p)
  = Return (Some (startswith (hd [] (readlines (f_content f))) (lit "<!DOCTYPE plist"))).
Proof.
  intros Hne Ha Hx Ho. cbn [file_is_valid].
  rewrite (PlistLoader_file_is_valid_path w None (Some p) p
             (file_path_or_view_given p None Hne) Hne).
  unfold appendix_check, extension_check, path_extension. rewrite Ha.
  apply str_eqb_neq in Hx. change (dot :: ext PlistLoader) with (lit ".plist").
  rewrite Hx. cbn [is_some orb]. rewrite Ho. cbn [obind].
  rewrite doctype_in_file_first_line.
  now destruct (readlines (f_content f)).
Qed.

Lemma PlistLoader_file_is_valid_first_line_witness :
  file_is_valid doctype_on_second_line PlistLoader None (Some (lit "Info.xml"))
  = Return (Some false).
Proof.
  exact (PlistLoader_file_is_valid_first_line doctype_on_second_line (lit "Info.xml")
           _ ltac:(discriminate) eq_refl ltac:(discriminate) eq_refl).
Defined.
